(** * Password Manager: the credential store and its settings

    A shallow embedding of [main_program.py] (class [PasswordManager]) and the
    properties of its create / read / update / delete operations.

    Modelling conventions.
    - A Python [str] is a [string] whose characters are read as code points
      below 256.
    - [self.passwords] and [self.settings] are Python dicts with string keys:
      finite maps [gmap string _].
    - A method is a computation in the monad [M]: it threads the object
      ([self]) and may raise a Python exception, keeping the mutations made
      before the raise.
    - A [QMessageBox] call appends a [dialog] to the log [dialogs] of the
      object; this log is how the caller learns the outcome of an operation.
    - The two JSON files are part of the state ([disk]).  A file that loads
      holds a JSON object, as [json.dump] of a dict writes it: names mapped
      to secret strings in [passwords.json], names mapped to JSON values in
      [settings.json].  What a write does (succeed or raise) and what the
      user answers to a question box are inputs of the operation that
      performs them. *)

From Stdlib Require Import ZArith String Ascii List.
From stdpp Require Import base option gmap strings list fin_maps sorting pretty.

Set Warnings "-register-all".

Local Open Scope string_scope.
Local Open Scope list_scope.
Local Open Scope Z_scope.

(** ** Python strings *)

Module PyStr.

(** [str.isspace] on one character, for code points below 256:
    TAB..CR, FS..US, SPACE, NEL and NBSP. *)
Definition isspace (c : ascii) : bool :=
  let n := nat_of_ascii c in
  ((9 <=? n)%nat && (n <=? 13)%nat)
  || ((28 <=? n)%nat && (n <=? 32)%nat)
  || (n =? 133)%nat || (n =? 160)%nat.

(** The empty string is the only falsy string ([if s:], [not s]). *)
Definition truthy (s : string) : bool :=
  match s with
  | EmptyString => false
  | String _ _ => true
  end.

Fixpoint lstrip (s : string) : string :=
  match s with
  | EmptyString => EmptyString
  | String c t => if isspace c then lstrip t else s
  end.

Fixpoint rstrip (s : string) : string :=
  match s with
  | EmptyString => EmptyString
  | String c t =>
      match rstrip t with
      | EmptyString => if isspace c then EmptyString else String c EmptyString
      | r => String c r
      end
  end.

(** [s.strip()] with no argument. *)
Definition strip (s : string) : string := rstrip (lstrip s).

(** Every character of [s] is white space. *)
Fixpoint all_space (s : string) : bool :=
  match s with
  | EmptyString => true
  | String c t => isspace c && all_space t
  end.

End PyStr.

(** ** Values read from and written to the JSON files *)

(** What [json.load] can return below the top-level object.  A float is kept
    as the text of its literal. *)
Inductive json : Type :=
  | JNull
  | JBool (b : bool)
  | JInt (n : Z)
  | JFloat (literal : string)
  | JStr (s : string)
  | JList (items : list json)
  | JDict (items : list (string * json)).

(** The exceptions the program can meet.  [JSONDecodeError] is a subclass of
    [ValueError]; [OSError] stands for every other failure of [open], of a
    read or of a write, with [str(e)] as its argument. *)
Inductive exn : Type :=
  | JSONDecodeError
  | ValueError
  | KeyError (key : string)
  | OSError (msg : string).

(** [python_repr s]: the program only needs it for the key of a [KeyError]. *)
Definition python_repr (s : string) : string := "'" +:+ s +:+ "'".

(** [str(e)] *)
Definition str (e : exn) : string :=
  match e with
  | JSONDecodeError => "Expecting value"
  | ValueError => "invalid literal for int() with base 10"
  | KeyError k => python_repr k
  | OSError msg => msg
  end.

Definition is_JSONDecodeError (e : exn) : bool :=
  match e with JSONDecodeError => true | _ => false end.

Definition is_ValueError (e : exn) : bool :=
  match e with JSONDecodeError | ValueError => true | _ => false end.

Definition is_Exception (e : exn) : bool := true.

(** What [open(file, 'r')] followed by [json.load] does on an existing file. *)
Inductive load_outcome (A : Type) : Type :=
  | Raises (e : exn)
  | Returns (data : A).
Arguments Raises {A} e.
Arguments Returns {A} data.

(** A file is absent, or present with the outcome of loading it. *)
Inductive file (A : Type) : Type :=
  | Missing
  | Present (content : load_outcome A).
Arguments Missing {A}.
Arguments Present {A} content.

Definition exists_ {A} (f : file A) : bool :=
  match f with Missing => false | Present _ => true end.

(** What [open(file, 'w')] followed by [json.dump] does: it completes, or it
    raises and leaves the file as [residue] (untouched when [open] failed,
    truncated or partly written otherwise). *)
Inductive write_outcome (A : Type) : Type :=
  | Written
  | WriteRaises (e : exn) (residue : file A).
Arguments Written {A}.
Arguments WriteRaises {A} e residue.

(** The two files of the program, by the attribute that names them. *)
Inductive path : Type := passwords_file | settings_file.

Definition content_of (p : path) : Type :=
  match p with
  | passwords_file => gmap string string
  | settings_file => gmap string json
  end.

(** The disk as the model takes it: each file is missing, fails to load, or
    loads to a JSON object of the shape the program writes, names mapped to
    secret strings in [passwords.json] and keys mapped to JSON values in
    [settings.json].  A file whose top-level value is anything else is
    outside the model: on such a value [self.settings.update] and
    [self.passwords.keys()] raise [TypeError] and [AttributeError]. *)
Record Disk : Type := mkDisk {
  passwords_json : file (gmap string string);
  settings_json : file (gmap string json)
}.

Definition write_file (p : path) : file (content_of p) → Disk → Disk :=
  match p with
  | passwords_file => fun f d => mkDisk f (settings_json d)
  | settings_file => fun f d => mkDisk (passwords_json d) f
  end.

(** ** Message boxes *)

Inductive icon : Type := Information | Warning | Critical | Question.

Record dialog : Type := MessageBox {
  dialog_icon : icon;
  dialog_title : string;
  dialog_text : string
}.

Inductive StandardButton : Type := Yes | No.

(** ** The object *)

Record PasswordManager : Type := mkPasswordManager {
  passwords : gmap string string;
  settings : gmap string json;
  program_input : string;
  password_input : string;
  update_program_input : string;
  update_password_input : string;
  min_length_input : string;
  max_length_input : string;
  (** names shown on the main page, one row each *)
  password_list : gset string;
  (** current index of the stacked widget *)
  stacked_widget : nat;
  disk : Disk;
  dialogs : list dialog
}.

Definition set_passwords (v : gmap string string) (s : PasswordManager) :=
  mkPasswordManager v (settings s) (program_input s) (password_input s)
    (update_program_input s) (update_password_input s) (min_length_input s)
    (max_length_input s) (password_list s) (stacked_widget s) (disk s)
    (dialogs s).

Definition set_settings (v : gmap string json) (s : PasswordManager) :=
  mkPasswordManager (passwords s) v (program_input s) (password_input s)
    (update_program_input s) (update_password_input s) (min_length_input s)
    (max_length_input s) (password_list s) (stacked_widget s) (disk s)
    (dialogs s).

Definition set_program_input (v : string) (s : PasswordManager) :=
  mkPasswordManager (passwords s) (settings s) v (password_input s)
    (update_program_input s) (update_password_input s) (min_length_input s)
    (max_length_input s) (password_list s) (stacked_widget s) (disk s)
    (dialogs s).

Definition set_password_input (v : string) (s : PasswordManager) :=
  mkPasswordManager (passwords s) (settings s) (program_input s) v
    (update_program_input s) (update_password_input s) (min_length_input s)
    (max_length_input s) (password_list s) (stacked_widget s) (disk s)
    (dialogs s).

Definition set_update_program_input (v : string) (s : PasswordManager) :=
  mkPasswordManager (passwords s) (settings s) (program_input s)
    (password_input s) v (update_password_input s) (min_length_input s)
    (max_length_input s) (password_list s) (stacked_widget s) (disk s)
    (dialogs s).

Definition set_update_password_input (v : string) (s : PasswordManager) :=
  mkPasswordManager (passwords s) (settings s) (program_input s)
    (password_input s) (update_program_input s) v (min_length_input s)
    (max_length_input s) (password_list s) (stacked_widget s) (disk s)
    (dialogs s).

Definition set_min_length_input (v : string) (s : PasswordManager) :=
  mkPasswordManager (passwords s) (settings s) (program_input s)
    (password_input s) (update_program_input s) (update_password_input s) v
    (max_length_input s) (password_list s) (stacked_widget s) (disk s)
    (dialogs s).

Definition set_max_length_input (v : string) (s : PasswordManager) :=
  mkPasswordManager (passwords s) (settings s) (program_input s)
    (password_input s) (update_program_input s) (update_password_input s)
    (min_length_input s) v (password_list s) (stacked_widget s) (disk s)
    (dialogs s).

Definition set_password_list (v : gset string) (s : PasswordManager) :=
  mkPasswordManager (passwords s) (settings s) (program_input s)
    (password_input s) (update_program_input s) (update_password_input s)
    (min_length_input s) (max_length_input s) v (stacked_widget s) (disk s)
    (dialogs s).

Definition set_stacked_widget (v : nat) (s : PasswordManager) :=
  mkPasswordManager (passwords s) (settings s) (program_input s)
    (password_input s) (update_program_input s) (update_password_input s)
    (min_length_input s) (max_length_input s) (password_list s) v (disk s)
    (dialogs s).

Definition set_disk (v : Disk) (s : PasswordManager) :=
  mkPasswordManager (passwords s) (settings s) (program_input s)
    (password_input s) (update_program_input s) (update_password_input s)
    (min_length_input s) (max_length_input s) (password_list s)
    (stacked_widget s) v (dialogs s).

Definition set_dialogs (v : list dialog) (s : PasswordManager) :=
  mkPasswordManager (passwords s) (settings s) (program_input s)
    (password_input s) (update_program_input s) (update_password_input s)
    (min_length_input s) (max_length_input s) (password_list s)
    (stacked_widget s) (disk s) v.

(** ** Methods as computations over the object *)

Inductive result (A : Type) : Type :=
  | Val (a : A)
  | Raise (e : exn).
Arguments Val {A} a.
Arguments Raise {A} e.

Definition M (A : Type) : Type := PasswordManager → result A * PasswordManager.

Definition ret {A} (a : A) : M A := fun s => (Val a, s).

Definition bind {A B} (m : M A) (k : A → M B) : M B :=
  fun s =>
    match m s with
    | (Val a, s') => k a s'
    | (Raise e, s') => (Raise e, s')
    end.

Definition raise {A} (e : exn) : M A := fun s => (Raise e, s).

Definition self : M PasswordManager := fun s => (Val s, s).

Definition modify (f : PasswordManager → PasswordManager) : M unit :=
  fun s => (Val tt, f s).

(** [try: body  except <class> as e: handler e] *)
Definition try_except {A} (body : M A) (catches : exn → bool)
    (handler : exn → M A) : M A :=
  fun s =>
    match body s with
    | (Val a, s') => (Val a, s')
    | (Raise e, s') => if catches e then handler e s' else (Raise e, s')
    end.

#[global] Instance M_ret : MRet M := @ret.
#[global] Instance M_bind : MBind M := fun A B k m => bind m k.

(** The object after a method has run, and what the method returned. *)
Definition exec {A} (m : M A) (s : PasswordManager) : PasswordManager := snd (m s).
Definition returned {A} (m : M A) (s : PasswordManager) : result A := fst (m s).

(** The message boxes a method has shown, oldest first. *)
Definition shown {A} (m : M A) (s : PasswordManager) : list dialog :=
  drop (length (dialogs s)) (dialogs (exec m s)).

(** ** Qt calls *)

Definition show_dialog (d : dialog) : M unit :=
  modify (fun s => set_dialogs (dialogs s ++ [d]) s).

Definition QMessageBox_information (title text : string) : M unit :=
  show_dialog (MessageBox Information title text).

Definition QMessageBox_warning (title text : string) : M unit :=
  show_dialog (MessageBox Warning title text).

Definition QMessageBox_critical (title text : string) : M unit :=
  show_dialog (MessageBox Critical title text).

(** [QMessageBox.question] returns the button [reply] the user presses. *)
Definition QMessageBox_question (title text : string) (reply : StandardButton)
    : M StandardButton :=
  show_dialog (MessageBox Question title text);; mret reply.

(** ** File access *)

(** [with open(file, 'r') as f: json.load(f)] *)
Definition json_load {A} (f : file A) : M A :=
  match f with
  | Missing => raise (OSError "No such file or directory")
  | Present (Raises e) => raise e
  | Present (Returns data) => mret data
  end.

(** [with open(filename, 'w') as f: json.dump(data, f, indent=4)] *)
Definition json_dump (filename : path) (data : content_of filename)
    (io : write_outcome (content_of filename)) : M unit :=
  match io with
  | Written =>
      modify (fun s => set_disk (write_file filename (Present (Returns data)) (disk s)) s)
  | WriteRaises e residue =>
      modify (fun s => set_disk (write_file filename residue (disk s)) s);;
      raise e
  end.

(** ** The methods of [PasswordManager] *)

Definition load_passwords : M unit :=
  modify (set_passwords ∅);;
  s ← self;
  if exists_ (passwords_json (disk s)) then
    try_except
      (data ← json_load (passwords_json (disk s));
       modify (set_passwords data))
      is_JSONDecodeError
      (fun _ => mret tt)
  else mret tt.

Definition default_settings : gmap string json :=
  <["min_length" := JInt 8]>
  (<["max_length" := JInt 20]>
  (<["require_special" := JBool true]>
  (<["require_capital" := JBool true]>
  (<["require_number" := JBool true]> ∅)))).

(** [dict.update] with a dict argument: the argument's entries win. *)
Definition dict_update {V} (d other : gmap string V) : gmap string V := other ∪ d.

Definition load_settings : M unit :=
  modify (set_settings default_settings);;
  s ← self;
  if exists_ (settings_json (disk s)) then
    try_except
      (saved_settings ← json_load (settings_json (disk s));
       modify (fun s => set_settings (dict_update (settings s) saved_settings) s))
      is_JSONDecodeError
      (fun _ => mret tt)
  else mret tt.

Definition save_to_json (filename : path) (data : content_of filename)
    (success_msg : option string) (io : write_outcome (content_of filename))
    : M bool :=
  try_except
    (json_dump filename data io;;
     match success_msg with
     | Some msg =>
         if PyStr.truthy msg then QMessageBox_information "Success" msg
         else mret tt
     | None => mret tt
     end;;
     mret true)
    is_Exception
    (fun e =>
       QMessageBox_critical "Error" ("Failed to save: " +:+ str e);;
       mret false).

(** The main page gets one row per key of [self.passwords]. *)
Definition refresh_password_list : M unit :=
  modify (fun s => set_password_list (dom (passwords s)) s).

Definition show_main_page : M unit := modify (set_stacked_widget 0).
Definition show_add_password_page : M unit := modify (set_stacked_widget 1).
Definition show_help_page : M unit := modify (set_stacked_widget 2).
Definition show_settings_page : M unit := modify (set_stacked_widget 3).

Definition show_update_password_page (program_name : string) : M unit :=
  modify (set_update_program_input program_name);;
  modify (set_update_password_input EmptyString);;
  modify (set_stacked_widget 4).

Section SaveSettings.

(** Python's [int] on a string: [None] stands for [ValueError]. *)
Variable int : string → option Z.

Definition int_of_text (text : string) : M Z :=
  match int text with
  | Some n => mret n
  | None => raise ValueError
  end.

Definition save_settings (io : write_outcome (gmap string json)) : M unit :=
  try_except
    (s ← self;
     min_length ← int_of_text (min_length_input s);
     max_length ← int_of_text (max_length_input s);
     if (min_length <? 1) || (max_length <? min_length) then
       QMessageBox_warning "Invalid Input"
         "Minimum length must be at least 1 and maximum length must be greater than or equal to minimum length."
     else
       modify (fun s => set_settings (<["min_length" := JInt min_length]> (settings s)) s);;
       modify (fun s => set_settings (<["max_length" := JInt max_length]> (settings s)) s);;
       s ← self;
       saved ← save_to_json settings_file (settings s)
                 (Some "Settings saved successfully!") io;
       if (saved : bool) then show_main_page else mret tt)
    is_ValueError
    (fun _ =>
       QMessageBox_warning "Invalid Input" "Length values must be valid numbers.").

End SaveSettings.

Definition save_password (io : write_outcome (gmap string string)) : M unit :=
  s ← self;
  let program := PyStr.strip (program_input s) in
  let password := PyStr.strip (password_input s) in
  if negb (PyStr.truthy program) || negb (PyStr.truthy password) then
    QMessageBox_warning "Input Error" "Both fields are required!"
  else
    modify (fun s => set_passwords (<[program := password]> (passwords s)) s);;
    s ← self;
    saved ← save_to_json passwords_file (passwords s)
              (Some "Password saved successfully!") io;
    if (saved : bool) then
      modify (set_program_input EmptyString);;
      modify (set_password_input EmptyString);;
      refresh_password_list;;
      show_main_page
    else mret tt.

Definition update_password (io : write_outcome (gmap string string)) : M unit :=
  s ← self;
  let program := PyStr.strip (update_program_input s) in
  let password := PyStr.strip (update_password_input s) in
  if negb (PyStr.truthy password) then
    QMessageBox_warning "Input Error" "Password cannot be empty!"
  else
    modify (fun s => set_passwords (<[program := password]> (passwords s)) s);;
    s ← self;
    saved ← save_to_json passwords_file (passwords s)
              (Some "Password updated successfully!") io;
    if (saved : bool) then
      modify (set_update_password_input EmptyString);;
      refresh_password_list;;
      show_main_page
    else mret tt.

(** [self.passwords.get(program_name, '')] *)
Definition retrieved (s : PasswordManager) (program_name : string) : string :=
  default EmptyString (passwords s !! program_name).

Definition retrieve_password (program_name : string) : M unit :=
  s ← self;
  let password := retrieved s program_name in
  QMessageBox_information "Password"
    ("Password for " +:+ program_name +:+ ": " +:+ password).

(** [del self.passwords[program_name]] *)
Definition del_passwords (program_name : string) : M unit :=
  s ← self;
  match passwords s !! program_name with
  | Some _ => modify (set_passwords (delete program_name (passwords s)))
  | None => raise (KeyError program_name)
  end.

Definition delete_password (program_name : string) (answer : StandardButton)
    (io : write_outcome (gmap string string)) : M unit :=
  reply ← QMessageBox_question "Delete Password"
            ("Delete password for " +:+ program_name +:+ "?") answer;
  match reply with
  | Yes =>
      del_passwords program_name;;
      s ← self;
      saved ← save_to_json passwords_file (passwords s)
                (Some "Password deleted successfully!") io;
      if (saved : bool) then refresh_password_list else mret tt
  | No => mret tt
  end.

(** [PasswordManager.__init__]: the attributes exist once the two loads have
    run; [setup_ui] builds the pages with empty input fields and fills the
    main page. *)
Definition blank (d : Disk) : PasswordManager :=
  mkPasswordManager ∅ ∅ EmptyString EmptyString EmptyString EmptyString
    EmptyString EmptyString ∅ 0%nat d [].

Definition setup_ui : M unit := refresh_password_list.

Definition init : M unit := load_passwords;; load_settings;; setup_ui.

(** ** The operations as the user performs them on the window *)

Module CredentialStore.

(** Type [name] and [secret] on the "Add a New Password" page, press Save. *)
Definition add (name secret : string) (io : write_outcome (gmap string string))
    : M unit :=
  modify (set_program_input name);;
  modify (set_password_input secret);;
  save_password io.

(** Press Update on the row of [name], type [new_secret], press Update. *)
Definition update (name new_secret : string)
    (io : write_outcome (gmap string string)) : M unit :=
  show_update_password_page name;;
  modify (set_update_password_input new_secret);;
  update_password io.

(** Press Retrieve on the row of [name]. *)
Definition get (name : string) : M unit := retrieve_password name.

(** Press Delete on the row of [name] and answer the question. *)
Definition delete (name : string) (answer : StandardButton)
    (io : write_outcome (gmap string string)) : M unit :=
  delete_password name answer io.

End CredentialStore.

(** ** Outcomes, as the message boxes report them *)

Inductive outcome : Type :=
  | Ok
  | InvalidInput
  | NotFound
  | PolicyViolation
  | PersistenceError.

(** The program has three kinds of report: the "Success" information box,
    the "Input Error" / "Invalid Input" warning boxes and the "Error"
    critical box of [save_to_json].  No box reports a missing name or a
    policy violation; other boxes (the retrieved password, the delete
    question) report no outcome. *)
Definition outcome_of (d : dialog) : option outcome :=
  match dialog_icon d with
  | Information =>
      if String.eqb (dialog_title d) "Success" then Some Ok else None
  | Warning =>
      if String.eqb (dialog_title d) "Input Error"
         || String.eqb (dialog_title d) "Invalid Input"
      then Some InvalidInput else None
  | Critical =>
      if String.eqb (dialog_title d) "Error" then Some PersistenceError else None
  | Question => None
  end.

(** The outcomes a method reports, oldest first. *)
Definition outcomes {A} (m : M A) (s : PasswordManager) : list outcome :=
  omap outcome_of (shown m s).

(** ** A decimal reading of [int] *)

Module PyInt.

Definition digit (c : ascii) : option Z :=
  let n := nat_of_ascii c in
  if ((48 <=? n)%nat && (n <=? 57)%nat) then Some (Z.of_nat n - 48) else None.

(** Digits with single underscores between them; [after_digit] tells
    whether the previous character was a digit. *)
Fixpoint digits (s : string) (acc : Z) (after_digit : bool) : option Z :=
  match s with
  | EmptyString => if after_digit then Some acc else None
  | String c t =>
      match digit c with
      | Some d => digits t (10 * acc + d) true
      | None =>
          if Ascii.eqb c "_"%char && after_digit then digits t acc false
          else None
      end
  end.

(** The white space [int] skips around the number: TAB..CR and SPACE, and
    NEL and NBSP, which it first turns into spaces.  Unlike [str.strip] it
    does not skip FS..US. *)
Definition space (c : ascii) : bool :=
  let n := nat_of_ascii c in
  ((9 <=? n)%nat && (n <=? 13)%nat) || (n =? 32)%nat
  || (n =? 133)%nat || (n =? 160)%nat.

Fixpoint skip_leading (s : string) : string :=
  match s with
  | EmptyString => EmptyString
  | String c t => if space c then skip_leading t else s
  end.

Fixpoint skip_trailing (s : string) : string :=
  match s with
  | EmptyString => EmptyString
  | String c t =>
      match skip_trailing t with
      | EmptyString => if space c then EmptyString else String c EmptyString
      | r => String c r
      end
  end.

(** The number of digit characters, underscores left out. *)
Fixpoint digit_count (s : string) : Z :=
  match s with
  | EmptyString => 0
  | String c t =>
      match digit c with
      | Some _ => 1 + digit_count t
      | None => digit_count t
      end
  end.

(** The default limit of the interpreter on the digits of a decimal text. *)
Definition max_str_digits : Z := 4300.

Definition magnitude (t : string) : option Z :=
  if max_str_digits <? digit_count t then None else digits t 0 false.

(** [int(text)] for text of code points below 256: surrounding white
    space, an optional sign, decimal digits.  [None] is [ValueError]. *)
Definition int (text : string) : option Z :=
  match skip_trailing (skip_leading text) with
  | String "-" t => Z.opp <$> magnitude t
  | String "+" t => magnitude t
  | t => magnitude t
  end.

End PyInt.

(** ** The validation engine of the specification *)

Module ValidationEngine.

Inductive ViolationKind : Type :=
  | TooShort
  | TooLong
  | MissingSpecial
  | MissingCapital
  | MissingNumber.

Record Policy : Type := mkPolicy {
  min_length : Z;
  max_length : Z;
  require_special : bool;
  require_capital : bool;
  require_number : bool
}.

Definition is_upper (c : ascii) : bool :=
  let n := nat_of_ascii c in (65 <=? n)%nat && (n <=? 90)%nat.
Definition is_lower (c : ascii) : bool :=
  let n := nat_of_ascii c in (97 <=? n)%nat && (n <=? 122)%nat.
Definition is_digit (c : ascii) : bool :=
  let n := nat_of_ascii c in (48 <=? n)%nat && (n <=? 57)%nat.
Definition is_special (c : ascii) : bool :=
  negb (is_upper c || is_lower c || is_digit c).

Fixpoint any (p : ascii → bool) (s : string) : bool :=
  match s with
  | EmptyString => false
  | String c t => p c || any p t
  end.

(** Modelled from the spec: the source has no validation function; this
    is [validate(secret, policy)] of the specification, section 4.2.  The
    length is counted in characters, a special character is one outside
    the ASCII letters and digits, and every violated rule is reported. *)
Definition validate (secret : string) (policy : Policy) : list ViolationKind :=
  let len := Z.of_nat (String.length secret) in
  (if len <? min_length policy then [TooShort] else [])
  ++ (if max_length policy <? len then [TooLong] else [])
  ++ (if require_special policy && negb (any is_special secret)
      then [MissingSpecial] else [])
  ++ (if require_capital policy && negb (any is_upper secret)
      then [MissingCapital] else [])
  ++ (if require_number policy && negb (any is_digit secret)
      then [MissingNumber] else []).

(** Modelled from the spec: [PolicyConfig.current()], the policy held in
    the settings dict when its five keys have the documented types. *)
Definition current (settings : gmap string json) : option Policy :=
  match settings !! "min_length", settings !! "max_length",
        settings !! "require_special", settings !! "require_capital",
        settings !! "require_number" with
  | Some (JInt lo), Some (JInt hi), Some (JBool sp), Some (JBool cap),
    Some (JBool num) => Some (mkPolicy lo hi sp cap num)
  | _, _, _, _, _ => None
  end.

(** The secret violates the policy currently configured. *)
Definition violates (settings : gmap string json) (secret : string) : Prop :=
  ∃ policy, current settings = Some policy ∧ validate secret policy ≠ [].

(** The secret satisfies the policy currently configured. *)
Definition satisfies (settings : gmap string json) (secret : string) : Prop :=
  ∃ policy, current settings = Some policy ∧ validate secret policy = [].

End ValidationEngine.

(** ** Vocabulary of the statements *)

(** The boxes of the program, by the outcome they report. *)
Definition success_box (msg : string) : dialog :=
  MessageBox Information "Success" msg.
Definition failed_to_save_box (e : exn) : dialog :=
  MessageBox Critical "Error" ("Failed to save: " +:+ str e).
Definition both_fields_box : dialog :=
  MessageBox Warning "Input Error" "Both fields are required!".
Definition empty_password_box : dialog :=
  MessageBox Warning "Input Error" "Password cannot be empty!".
Definition password_box (program_name password : string) : dialog :=
  MessageBox Information "Password"
    ("Password for " +:+ program_name +:+ ": " +:+ password).
Definition delete_question_box (program_name : string) : dialog :=
  MessageBox Question "Delete Password"
    ("Delete password for " +:+ program_name +:+ "?").

Definition not_numbers_box : dialog :=
  MessageBox Warning "Invalid Input" "Length values must be valid numbers.".
Definition bad_bounds_box : dialog :=
  MessageBox Warning "Invalid Input"
    "Minimum length must be at least 1 and maximum length must be greater than or equal to minimum length.".

(** The two texts do not describe acceptable lengths: one of them is not an
    integer, or the minimum is below 1, or the maximum is below the minimum. *)
Definition invalid_lengths (int : string → option Z) (min_text max_text : string)
    : Prop :=
  match int min_text, int max_text with
  | Some min_length, Some max_length => min_length < 1 ∨ max_length < min_length
  | _, _ => True
  end.

(** A string starts clean when its first character, if any, is not white
    space. *)
Definition starts_clean (s : string) : Prop :=
  match s with
  | EmptyString => True
  | String c _ => PyStr.isspace c = false
  end.

(** ** Sample installations *)

(** The window on a machine with neither file: empty store, default settings. *)
Definition fresh_install : PasswordManager :=
  exec init (blank (mkDisk Missing Missing)).

(** The window when [passwords.json] holds the given mapping. *)
Definition installed_with (saved : gmap string string) : PasswordManager :=
  exec init (blank (mkDisk (Present (Returns saved)) Missing)).

Definition disk_full : write_outcome (gmap string string) :=
  WriteRaises (OSError "[Errno 28] No space left on device") (Present (Raises JSONDecodeError)).

(** A settings file written by another tool, with a key the program does not
    know. *)
Definition themed_disk : Disk :=
  mkDisk Missing (Present (Returns {["theme" := JStr "dark"]})).

(** The settings page with the two length fields filled in. *)
Definition settings_typed (min_text max_text : string) : PasswordManager :=
  set_max_length_input max_text (set_min_length_input min_text fresh_install).

(** ** The remaining methods *)

(** [d[key]] on a dict: a missing key raises [KeyError]. *)
Definition getitem (d : gmap string json) (key : string) : M json :=
  match d !! key with
  | Some value => mret value
  | None => raise (KeyError key)
  end.

Section ResetSettings.

(** Python's [str] on a value of the settings dict. *)
Variable str_of : json → string.

Definition reset_settings (io : write_outcome (gmap string json)) : M unit :=
  modify (set_settings default_settings);;
  s ← self;
  min_length ← getitem (settings s) "min_length";
  modify (set_min_length_input (str_of min_length));;
  s ← self;
  max_length ← getitem (settings s) "max_length";
  modify (set_max_length_input (str_of max_length));;
  s ← self;
  save_to_json settings_file (settings s) (Some "Settings reset to defaults!") io;;
  mret tt.

End ResetSettings.

(** An instance of [str] for the examples: exact on [None], the booleans,
    the integers and the strings; a float is shown by its literal and a
    container is elided, the program prints neither. *)
Definition str_of_value (value : json) : string :=
  match value with
  | JNull => "None"
  | JBool true => "True"
  | JBool false => "False"
  | JInt n => pretty n
  | JFloat literal => literal
  | JStr s => s
  | JList _ => "[...]"
  | JDict _ => "{...}"
  end.

(** ** The main page *)

(** What [password_list_layout] holds: a row of buttons for a program, a
    horizontal line, or the stretch that ends the page. *)
Inductive layout_item : Type :=
  | Row (program_name : string)
  | Line
  | Stretch.

(** The order of [str]: by code point, a proper prefix first. *)
Definition str_le : relation string := λ a b, String.leb a b = true.

#[global] Instance str_le_dec (a b : string) : Decision (str_le a b).
Proof. unfold str_le. apply _. Defined.

(** [sorted(d.keys())] *)
Definition sorted_keys {V} (d : gmap string V) : list string :=
  merge_sort str_le (elements (dom d)).

(** The first loop of [refresh_password_list]: take the item at index 0
    while the layout counts any. *)
Fixpoint take_all (layout : list layout_item) : list layout_item :=
  match layout with
  | [] => []
  | _ :: rest => take_all rest
  end.

(** The second loop, from index [i] on: a row per name, and a line after
    it when [i < len(self.passwords) - 1]. *)
Fixpoint add_rows (i count : Z) (names : list string) : list layout_item :=
  match names with
  | [] => []
  | program_name :: rest =>
      Row program_name
      :: (if i <? count - 1 then [Line] else []) ++ add_rows (i + 1) count rest
  end.

(** The layout of the main page after [refresh_password_list], from the
    layout before it and [self.passwords]. *)
Definition refresh_layout (layout : list layout_item) (d : gmap string string)
    : list layout_item :=
  take_all layout ++ add_rows 0 (Z.of_nat (size d)) (sorted_keys d) ++ [Stretch].

(** ** Conditions on the object *)

(** The main page has a row for every stored name and no other. *)
Definition listed (s : PasswordManager) : Prop :=
  password_list s = dom (passwords s).

(** [passwords.json] loads back to the in-memory mapping. *)
Definition synced (s : PasswordManager) : Prop :=
  passwords_json (disk s) = Present (Returns (passwords s)).

(** Names and secrets as the window stores them: trimmed and not empty. *)
Definition trimmed (text : string) : Prop :=
  PyStr.strip text = text ∧ text ≠ EmptyString.

Definition well_formed (d : gmap string string) : Prop :=
  ∀ name secret, d !! name = Some secret → trimmed name ∧ trimmed secret.

(** The settings hold the five keys of the defaults. *)
Definition has_defaults (d : gmap string json) : Prop :=
  dom default_settings ⊆ dom d.

(** The two lengths are integers with [1 ≤ min_length ≤ max_length]. *)
Definition lengths_ok (d : gmap string json) : Prop :=
  ∃ lo hi, d !! "min_length" = Some (JInt lo)
           ∧ d !! "max_length" = Some (JInt hi)
           ∧ 1 ≤ lo ∧ lo ≤ hi.

(** The exception of a file that stops [__init__]: any but the
    [JSONDecodeError] the loaders swallow. *)
Definition fatal {A} (f : file A) : option exn :=
  match f with
  | Present (Raises e) => if is_JSONDecodeError e then None else Some e
  | _ => None
  end.

(** What a loader leaves in memory for a file, starting from [start]. *)
Definition loaded {A} (start : A) (overlay : A → A) (f : file A) : A :=
  match f with
  | Present (Returns data) => overlay data
  | _ => start
  end.

(** [sep] between the elements of a list, none after the last. *)
Fixpoint between {A} (sep : A) (l : list A) : list A :=
  match l with
  | [] => []
  | [x] => [x]
  | x :: rest => x :: sep :: between sep rest
  end.

(** A write failure that leaves the settings file truncated. *)
Definition settings_disk_full : write_outcome (gmap string json) :=
  WriteRaises (OSError "[Errno 28] No space left on device")
    (Present (Raises JSONDecodeError)).

(** * Properties *)

(** ** Stripping *)

Module PyStrFacts.
Import PyStr.

Lemma truthy_true (s : string) : truthy s = true ↔ s ≠ EmptyString.
Proof. destruct s; simpl; split; congruence. Qed.

Lemma truthy_false (s : string) : truthy s = false ↔ s = EmptyString.
Proof. destruct s; simpl; split; congruence. Qed.

Lemma lstrip_starts_clean (s : string) : starts_clean (lstrip s).
Proof.
  induction s as [|c t IH]; simpl; [exact I|].
  destruct (isspace c) eqn:E; [exact IH | exact E].
Qed.

Lemma lstrip_clean (s : string) : starts_clean s → lstrip s = s.
Proof. destruct s as [|c t]; simpl; [reflexivity|]. intros ->. reflexivity. Qed.

Lemma rstrip_starts_clean (s : string) : starts_clean s → starts_clean (rstrip s).
Proof.
  destruct s as [|c t]; simpl; [trivial|]. intros E.
  destruct (rstrip t); rewrite ?E; exact E.
Qed.

Lemma rstrip_idemp (s : string) : rstrip (rstrip s) = rstrip s.
Proof.
  induction s as [|c t IH]; simpl; [reflexivity|].
  destruct (rstrip t) as [|c' r] eqn:E.
  - destruct (isspace c) eqn:Ec; simpl; [reflexivity|]. rewrite Ec. reflexivity.
  - change (rstrip (String c (String c' r)))
      with (match rstrip (String c' r) with
            | EmptyString => if isspace c then EmptyString else String c EmptyString
            | r0 => String c r0
            end).
    rewrite IH. reflexivity.
Qed.

Lemma strip_idemp (s : string) : strip (strip s) = strip s.
Proof.
  unfold strip.
  rewrite (lstrip_clean (rstrip (lstrip s))).
  - apply rstrip_idemp.
  - apply rstrip_starts_clean, lstrip_starts_clean.
Qed.

(** [lstrip] removes a prefix of white space and nothing else. *)
Lemma lstrip_prefix (s : string) :
  ∃ l, s = l +:+ lstrip s ∧ all_space l = true.
Proof.
  induction s as [|c t (l & Hl & Hs)]; simpl.
  - exists EmptyString. split; reflexivity.
  - destruct (isspace c) eqn:E.
    + exists (String c l). simpl. rewrite E, Hs. split; [|reflexivity].
      change (String c t = String c (l +:+ lstrip t)). f_equal. exact Hl.
    + exists EmptyString. split; reflexivity.
Qed.

(** [rstrip] removes a suffix of white space and nothing else. *)
Lemma rstrip_suffix (s : string) :
  ∃ r, s = rstrip s +:+ r ∧ all_space r = true.
Proof.
  induction s as [|c t (r & Hr & Hs)]; simpl.
  - exists EmptyString. split; reflexivity.
  - destruct (rstrip t) as [|c' u] eqn:E.
    + simpl in Hr. subst t. destruct (isspace c) eqn:Ec.
      * exists (String c r). simpl. rewrite Ec, Hs. split; reflexivity.
      * exists r. split; [reflexivity | exact Hs].
    + exists r. split; [|exact Hs].
      change (String c t = String c (String c' u +:+ r)). f_equal. exact Hr.
Qed.

(** [strip] returns the middle of its argument: what it removes on either
    side is white space. *)
Lemma strip_middle (s : string) :
  ∃ l r, s = l +:+ strip s +:+ r ∧ all_space l = true ∧ all_space r = true.
Proof.
  destruct (lstrip_prefix s) as (l & Hl & Hsl).
  destruct (rstrip_suffix (lstrip s)) as (r & Hr & Hsr).
  exists l, r. unfold strip. rewrite <- Hr. auto.
Qed.

End PyStrFacts.

(** ** Running the methods *)

Ltac unfold_methods :=
  unfold CredentialStore.add, CredentialStore.update, CredentialStore.get,
    CredentialStore.delete,
    save_password, update_password, retrieve_password, delete_password,
    del_passwords, save_settings, int_of_text, load_passwords, load_settings,
    save_to_json, json_dump, json_load, try_except,
    show_update_password_page, show_main_page, refresh_password_list,
    QMessageBox_information, QMessageBox_warning, QMessageBox_critical,
    QMessageBox_question, show_dialog, modify, self, raise,
    mret, M_ret, ret, mbind, M_bind, bind.

Ltac run :=
  unfold_methods;
  cbn -[PyStr.strip PyStr.truthy negb orb String.append insert union dom delete lookup].

Lemma shown_intro {A} (m : M A) (s : PasswordManager) (ds : list dialog) :
  dialogs (exec m s) = dialogs s ++ ds → shown m s = ds.
Proof. intros H. unfold shown. rewrite H. apply drop_app_length. Qed.

Lemma shown_nothing {A} (m : M A) (s : PasswordManager) :
  dialogs (exec m s) = dialogs s → shown m s = [].
Proof. intros H. apply shown_intro. rewrite H, app_nil_r. reflexivity. Qed.

Lemma outcomes_intro {A} (m : M A) (s : PasswordManager) (ds : list dialog) :
  dialogs (exec m s) = dialogs s ++ ds → outcomes m s = omap outcome_of ds.
Proof. intros H. unfold outcomes. rewrite (shown_intro m s ds H). reflexivity. Qed.

Section Add.
Import PyStr PyStrFacts.
Variables (name secret : string) (s : PasswordManager).

Let typed := set_password_input secret (set_program_input name s).
Let stored := <[strip name := strip secret]> (passwords s).

Lemma add_rejected io :
  strip name = EmptyString ∨ strip secret = EmptyString →
  CredentialStore.add name secret io s
  = (Val tt, set_dialogs (dialogs s ++ [both_fields_box]) typed).
Proof.
  intros H. run.
  assert (negb (truthy (strip name)) || negb (truthy (strip secret)) = true) as ->.
  { destruct H as [-> | ->]; simpl; [reflexivity | apply orb_true_r]. }
  reflexivity.
Qed.

Hypothesis name_given : strip name ≠ EmptyString.
Hypothesis secret_given : strip secret ≠ EmptyString.

Lemma add_accepted_guard :
  negb (truthy (strip name)) || negb (truthy (strip secret)) = false.
Proof.
  apply truthy_true in name_given, secret_given.
  rewrite name_given, secret_given. reflexivity.
Qed.

Lemma add_written :
  CredentialStore.add name secret Written s
  = (Val tt,
     set_stacked_widget 0
       (set_password_list (dom stored)
          (set_password_input EmptyString
             (set_program_input EmptyString
                (set_dialogs
                   (dialogs s ++ [success_box "Password saved successfully!"])
                   (set_disk
                      (write_file passwords_file (Present (Returns stored)) (disk s))
                      (set_passwords stored typed))))))).
Proof. run. rewrite add_accepted_guard. reflexivity. Qed.

Lemma add_write_failed e residue :
  CredentialStore.add name secret (WriteRaises e residue) s
  = (Val tt,
     set_dialogs (dialogs s ++ [failed_to_save_box e])
       (set_disk (write_file passwords_file residue (disk s))
          (set_passwords stored typed))).
Proof. run. rewrite add_accepted_guard. reflexivity. Qed.

(** Whatever the write does, the dict holds the stripped pair. *)
Lemma add_passwords io :
  passwords (exec (CredentialStore.add name secret io) s) = stored.
Proof.
  unfold exec. destruct io as [|e residue].
  - rewrite add_written. reflexivity.
  - rewrite add_write_failed. reflexivity.
Qed.

Lemma add_settings io :
  settings (exec (CredentialStore.add name secret io) s) = settings s.
Proof.
  unfold exec. destruct io as [|e residue].
  - rewrite add_written. reflexivity.
  - rewrite add_write_failed. reflexivity.
Qed.

Lemma add_written_outcomes :
  outcomes (CredentialStore.add name secret Written) s = [Ok].
Proof.
  apply (outcomes_intro _ _ [success_box "Password saved successfully!"]).
  unfold exec. rewrite add_written. reflexivity.
Qed.

Lemma add_write_failed_outcomes e residue :
  outcomes (CredentialStore.add name secret (WriteRaises e residue)) s
  = [PersistenceError].
Proof.
  apply (outcomes_intro _ _ [failed_to_save_box e]).
  unfold exec. rewrite add_write_failed. reflexivity.
Qed.

End Add.

Section Update.
Import PyStr PyStrFacts.
Variables (name new_secret : string) (s : PasswordManager).

Let typed :=
  set_update_password_input new_secret
    (set_stacked_widget 4
       (set_update_password_input EmptyString
          (set_update_program_input name s))).
Let stored := <[strip name := strip new_secret]> (passwords s).

Lemma update_rejected io :
  strip new_secret = EmptyString →
  CredentialStore.update name new_secret io s
  = (Val tt, set_dialogs (dialogs s ++ [empty_password_box]) typed).
Proof. intros H. run. rewrite H. reflexivity. Qed.

Hypothesis secret_given : strip new_secret ≠ EmptyString.

Lemma update_accepted_guard : negb (truthy (strip new_secret)) = false.
Proof. apply truthy_true in secret_given. rewrite secret_given. reflexivity. Qed.

Lemma update_written :
  CredentialStore.update name new_secret Written s
  = (Val tt,
     set_stacked_widget 0
       (set_password_list (dom stored)
          (set_update_password_input EmptyString
             (set_dialogs
                (dialogs s ++ [success_box "Password updated successfully!"])
                (set_disk
                   (write_file passwords_file (Present (Returns stored)) (disk s))
                   (set_passwords stored typed)))))).
Proof. run. rewrite update_accepted_guard. reflexivity. Qed.

Lemma update_write_failed e residue :
  CredentialStore.update name new_secret (WriteRaises e residue) s
  = (Val tt,
     set_dialogs (dialogs s ++ [failed_to_save_box e])
       (set_disk (write_file passwords_file residue (disk s))
          (set_passwords stored typed))).
Proof. run. rewrite update_accepted_guard. reflexivity. Qed.

(** [update_password] never looks the name up: it assigns. *)
Lemma update_passwords io :
  passwords (exec (CredentialStore.update name new_secret io) s) = stored.
Proof.
  unfold exec. destruct io as [|e residue].
  - rewrite update_written. reflexivity.
  - rewrite update_write_failed. reflexivity.
Qed.

Lemma update_written_outcomes :
  outcomes (CredentialStore.update name new_secret Written) s = [Ok].
Proof.
  apply (outcomes_intro _ _ [success_box "Password updated successfully!"]).
  unfold exec. rewrite update_written. reflexivity.
Qed.

Lemma update_write_failed_outcomes e residue :
  outcomes (CredentialStore.update name new_secret (WriteRaises e residue)) s
  = [PersistenceError].
Proof.
  apply (outcomes_intro _ _ [failed_to_save_box e]).
  unfold exec. rewrite update_write_failed. reflexivity.
Qed.

End Update.

Section Get.
Variables (name : string) (s : PasswordManager).

Lemma get_run :
  CredentialStore.get name s
  = (Val tt, set_dialogs (dialogs s ++ [password_box name (retrieved s name)]) s).
Proof. reflexivity. Qed.

Lemma get_shown :
  shown (CredentialStore.get name) s = [password_box name (retrieved s name)].
Proof. apply shown_intro. reflexivity. Qed.

Lemma get_outcomes : outcomes (CredentialStore.get name) s = [].
Proof. unfold outcomes. rewrite get_shown. reflexivity. Qed.

Lemma get_passwords : passwords (exec (CredentialStore.get name) s) = passwords s.
Proof. reflexivity. Qed.

End Get.

Section Delete.
Variables (name : string) (s : PasswordManager).

Let asked := set_dialogs (dialogs s ++ [delete_question_box name]) s.
Let remaining := delete name (passwords s).

Lemma delete_declined io :
  CredentialStore.delete name No io s = (Val tt, asked).
Proof. reflexivity. Qed.

Lemma delete_absent io :
  passwords s !! name = None →
  CredentialStore.delete name Yes io s = (Raise (KeyError name), asked).
Proof. intros H. run. rewrite H. reflexivity. Qed.

Hypothesis present : is_Some (passwords s !! name).

Lemma delete_written :
  CredentialStore.delete name Yes Written s
  = (Val tt,
     set_password_list (dom remaining)
       (set_dialogs
          ((dialogs s ++ [delete_question_box name])
           ++ [success_box "Password deleted successfully!"])
          (set_disk
             (write_file passwords_file (Present (Returns remaining)) (disk s))
             (set_passwords remaining asked)))).
Proof. destruct present as [v Hv]. run. rewrite Hv. reflexivity. Qed.

Lemma delete_write_failed e residue :
  CredentialStore.delete name Yes (WriteRaises e residue) s
  = (Val tt,
     set_dialogs
       ((dialogs s ++ [delete_question_box name]) ++ [failed_to_save_box e])
       (set_disk (write_file passwords_file residue (disk s))
          (set_passwords remaining asked))).
Proof. destruct present as [v Hv]. run. rewrite Hv. reflexivity. Qed.

Lemma delete_passwords io :
  passwords (exec (CredentialStore.delete name Yes io) s) = remaining.
Proof.
  unfold exec. destruct io as [|e residue].
  - rewrite delete_written. reflexivity.
  - rewrite delete_write_failed. reflexivity.
Qed.

Lemma delete_write_failed_outcomes e residue :
  outcomes (CredentialStore.delete name Yes (WriteRaises e residue)) s
  = [PersistenceError].
Proof.
  apply (outcomes_intro _ _ [delete_question_box name; failed_to_save_box e]).
  unfold exec. rewrite delete_write_failed. cbn. rewrite <- app_assoc. reflexivity.
Qed.

End Delete.

(** ** The credential store *)

Lemma not_in_singleton (o o' : outcome) : o ≠ o' → o ∉ [o'].
Proof. intros Hne Hin. apply list_elem_of_singleton in Hin. contradiction. Qed.

(** The default policy and a secret that breaks four of its rules. *)
Lemma abc_violates_defaults :
  ValidationEngine.violates (settings fresh_install) "abc".
Proof.
  exists (ValidationEngine.mkPolicy 8 20 true true true).
  split; [vm_compute; reflexivity | vm_compute; discriminate].
Qed.

Section StoreClaims.
Import PyStr PyStrFacts.

(** C1, as stated, fails: a write failure during an add leaves the new entry
  in the in-memory mapping, which differs from the mapping before the
  operation; the failure itself is reported. *)
Lemma failed_add_is_not_rolled_back :
passwords fresh_install !! "github" = None
∧ passwords (exec (CredentialStore.add "github" "Sup3r$ecret1" disk_full) fresh_install)
    !! "github" = Some "Sup3r$ecret1"
∧ passwords (exec (CredentialStore.add "github" "Sup3r$ecret1" disk_full) fresh_install)
  ≠ passwords fresh_install
∧ outcomes (CredentialStore.add "github" "Sup3r$ecret1" disk_full) fresh_install
  = [PersistenceError].
Proof.
split; [vm_compute; reflexivity|].
split; [vm_compute; reflexivity|].
split; [|vm_compute; reflexivity].
intros H. apply (f_equal (lookup "github")) in H.
vm_compute in H. discriminate H.
Qed.

(** C1 (amended): for add, update and delete, when the write of the store
  fails the caller receives PersistenceError (the "Failed to save" box),
  and the in-memory mapping keeps the mutation: it holds the added or
  updated entry, or lacks the deleted one, while the file is left as the
  failed write left it. *)
Theorem failed_write_keeps_mutation
  (s : PasswordManager) (name secret victim : string)
  (e : exn) (residue : file (gmap string string)) :
strip name ≠ EmptyString →
strip secret ≠ EmptyString →
is_Some (passwords s !! victim) →
(passwords (exec (CredentialStore.add name secret (WriteRaises e residue)) s)
   = <[strip name := strip secret]> (passwords s)
 ∧ shown (CredentialStore.add name secret (WriteRaises e residue)) s
   = [failed_to_save_box e]
 ∧ outcomes (CredentialStore.add name secret (WriteRaises e residue)) s
   = [PersistenceError]
 ∧ passwords_json (disk (exec (CredentialStore.add name secret (WriteRaises e residue)) s))
   = residue)
∧ (passwords (exec (CredentialStore.update name secret (WriteRaises e residue)) s)
   = <[strip name := strip secret]> (passwords s)
 ∧ shown (CredentialStore.update name secret (WriteRaises e residue)) s
   = [failed_to_save_box e]
 ∧ outcomes (CredentialStore.update name secret (WriteRaises e residue)) s
   = [PersistenceError]
 ∧ passwords_json (disk (exec (CredentialStore.update name secret (WriteRaises e residue)) s))
   = residue)
∧ (passwords (exec (CredentialStore.delete victim Yes (WriteRaises e residue)) s)
   = delete victim (passwords s)
 ∧ shown (CredentialStore.delete victim Yes (WriteRaises e residue)) s
   = [delete_question_box victim; failed_to_save_box e]
 ∧ outcomes (CredentialStore.delete victim Yes (WriteRaises e residue)) s
   = [PersistenceError]
 ∧ passwords_json (disk (exec (CredentialStore.delete victim Yes (WriteRaises e residue)) s))
   = residue).
Proof.
intros Hname Hsecret Hvictim. repeat split.
- apply add_passwords; assumption.
- apply shown_intro. unfold exec. rewrite add_write_failed by assumption. reflexivity.
- apply add_write_failed_outcomes; assumption.
- unfold exec. rewrite add_write_failed by assumption. reflexivity.
- apply update_passwords; assumption.
- apply shown_intro. unfold exec. rewrite update_write_failed by assumption. reflexivity.
- apply update_write_failed_outcomes; assumption.
- unfold exec. rewrite update_write_failed by assumption. reflexivity.
- apply delete_passwords; assumption.
- apply shown_intro. unfold exec. rewrite delete_write_failed by assumption.
  cbn. rewrite <- app_assoc. reflexivity.
- apply delete_write_failed_outcomes; assumption.
- unfold exec. rewrite delete_write_failed by assumption. reflexivity.
Qed.

Lemma failed_write_keeps_mutation_witness :
strip "gitlab" ≠ EmptyString
∧ strip "N3w$ecret!" ≠ EmptyString
∧ is_Some (passwords (installed_with {["github" := "Sup3r$ecret1"]}) !! "github")
∧ passwords (exec (CredentialStore.add "gitlab" "N3w$ecret!" disk_full)
               (installed_with {["github" := "Sup3r$ecret1"]}))
  = <[strip "gitlab" := strip "N3w$ecret!"]>
      (passwords (installed_with {["github" := "Sup3r$ecret1"]}))
∧ passwords (exec (CredentialStore.delete "github" Yes disk_full)
               (installed_with {["github" := "Sup3r$ecret1"]}))
  = delete "github" (passwords (installed_with {["github" := "Sup3r$ecret1"]})).
Proof.
assert (H1 : strip "gitlab" ≠ EmptyString) by (vm_compute; discriminate).
assert (H2 : strip "N3w$ecret!" ≠ EmptyString) by (vm_compute; discriminate).
assert (H3 : is_Some (passwords (installed_with {["github" := "Sup3r$ecret1"]}) !! "github"))
  by (vm_compute; eexists; reflexivity).
pose proof (failed_write_keeps_mutation
              (installed_with {["github" := "Sup3r$ecret1"]})
              "gitlab" "N3w$ecret!" "github"
              (OSError "[Errno 28] No space left on device")
              (Present (Raises JSONDecodeError)) H1 H2 H3)
  as ((Hadd & _) & _ & (Hdel & _)).
split; [exact H1|]. split; [exact H2|]. split; [exact H3|].
split; [exact Hadd | exact Hdel].
Defined.

(** C2, as stated, fails: under the default policy the secret "abc" violates
  four rules, yet add inserts it and reports success. *)
Lemma weak_secret_is_added :
ValidationEngine.violates (settings fresh_install) "abc"
∧ outcomes (CredentialStore.add "github" "abc" Written) fresh_install = [Ok]
∧ passwords (exec (CredentialStore.add "github" "abc" Written) fresh_install)
    !! "github" = Some "abc".
Proof.
split; [exact abc_violates_defaults|].
split; vm_compute; reflexivity.
Qed.

(** C2 (amended): add performs no policy check.  For every name and every
  candidate secret that violates the configured policy, add never returns
  PolicyViolation: when the trimmed name and secret are non-empty it
  inserts the trimmed entry (and reports success when the write succeeds);
  otherwise it returns InvalidInput and inserts nothing. *)
Theorem add_ignores_policy
  (s : PasswordManager) (name secret : string)
  (io : write_outcome (gmap string string)) :
ValidationEngine.violates (settings s) secret →
(PolicyViolation ∉ outcomes (CredentialStore.add name secret io) s)
∧ (strip name ≠ EmptyString → strip secret ≠ EmptyString →
   passwords (exec (CredentialStore.add name secret io) s) !! strip name
     = Some (strip secret)
   ∧ outcomes (CredentialStore.add name secret Written) s = [Ok])
∧ (strip name = EmptyString ∨ strip secret = EmptyString →
   outcomes (CredentialStore.add name secret io) s = [InvalidInput]
   ∧ passwords (exec (CredentialStore.add name secret io) s) = passwords s).
Proof.
intros _.
assert (Hrej : strip name = EmptyString ∨ strip secret = EmptyString →
          outcomes (CredentialStore.add name secret io) s = [InvalidInput]
          ∧ passwords (exec (CredentialStore.add name secret io) s) = passwords s).
{ intros H. split.
  - apply (outcomes_intro _ _ [both_fields_box]).
    unfold exec. rewrite add_rejected by assumption. reflexivity.
  - unfold exec. rewrite add_rejected by assumption. reflexivity. }
split; [|split; [|exact Hrej]].
- destruct (decide (strip name = EmptyString)) as [Hn|Hn];
    [rewrite (proj1 (Hrej (or_introl Hn))); apply not_in_singleton; discriminate|].
  destruct (decide (strip secret = EmptyString)) as [Hs|Hs];
    [rewrite (proj1 (Hrej (or_intror Hs))); apply not_in_singleton; discriminate|].
  destruct io as [|e residue].
  + rewrite add_written_outcomes by assumption.
    apply not_in_singleton; discriminate.
  + rewrite add_write_failed_outcomes by assumption.
    apply not_in_singleton; discriminate.
- intros Hn Hs. split.
  + rewrite add_passwords by assumption. apply lookup_insert_eq.
  + apply add_written_outcomes; assumption.
Qed.

Lemma add_ignores_policy_witness :
ValidationEngine.violates (settings fresh_install) "abc"
∧ (PolicyViolation ∉ outcomes (CredentialStore.add "github" "abc" Written) fresh_install)
∧ passwords (exec (CredentialStore.add "github" "abc" Written) fresh_install)
    !! strip "github" = Some (strip "abc").
Proof.
assert (H : ValidationEngine.violates (settings fresh_install) "abc")
  by exact abc_violates_defaults.
destruct (add_ignores_policy fresh_install "github" "abc" Written H)
  as (Hno & Hins & _).
split; [exact H|]. split; [exact Hno|].
apply Hins; vm_compute; discriminate.
Defined.

(** C3, as stated, fails: updating a name that is not in the store inserts
  it and reports success, and retrieving a name that is not in the store
  shows the same box as retrieving an entry whose secret is empty. *)
Lemma update_of_absent_name_inserts :
passwords fresh_install !! "github" = None
∧ outcomes (CredentialStore.update "github" "Sup3r$ecret1" Written) fresh_install
  = [Ok]
∧ passwords (exec (CredentialStore.update "github" "Sup3r$ecret1" Written) fresh_install)
    !! "github" = Some "Sup3r$ecret1"
∧ passwords (installed_with {["github" := EmptyString]}) !! "github"
  = Some EmptyString
∧ shown (CredentialStore.get "github") fresh_install
  = shown (CredentialStore.get "github") (installed_with {["github" := EmptyString]}).
Proof. repeat split; vm_compute; reflexivity. Qed.

(** C3 (amended): for every name not present in the store, get yields the
    empty string (the same box as for an entry whose secret is empty, and no
    NotFound); update with a non-empty trimmed secret stores the secret
    under the trimmed name and reports success when the write succeeds: it
    adds an entry when the trimmed name is not stored, as when the name has
    no surrounding white space, and otherwise replaces the secret of the
    trimmed name and adds none; a confirmed delete raises [KeyError] for the
    name, leaving the mapping and the files untouched. *)
Theorem name_not_in_store
    (s : PasswordManager) (name : string) :
  passwords s !! name = None →
  (retrieved s name = EmptyString
   ∧ shown (CredentialStore.get name) s = [password_box name EmptyString]
   ∧ outcomes (CredentialStore.get name) s = []
   ∧ ∀ s', passwords s' !! name = Some EmptyString →
       shown (CredentialStore.get name) s' = shown (CredentialStore.get name) s)
  ∧ (∀ new_secret io, strip new_secret ≠ EmptyString →
       passwords (exec (CredentialStore.update name new_secret io) s) !! strip name
         = Some (strip new_secret)
       ∧ outcomes (CredentialStore.update name new_secret Written) s = [Ok]
       ∧ (passwords s !! strip name = None →
          size (passwords (exec (CredentialStore.update name new_secret io) s))
          = S (size (passwords s)))
       ∧ (strip name = name →
          size (passwords (exec (CredentialStore.update name new_secret io) s))
          = S (size (passwords s)))
       ∧ (is_Some (passwords s !! strip name) →
          size (passwords (exec (CredentialStore.update name new_secret io) s))
          = size (passwords s)
          ∧ dom (passwords (exec (CredentialStore.update name new_secret io) s))
            = dom (passwords s)
          ∧ passwords (exec (CredentialStore.update name new_secret io) s) !! name
            = None))
  ∧ (∀ io,
       returned (CredentialStore.delete name Yes io) s = Raise (KeyError name)
       ∧ passwords (exec (CredentialStore.delete name Yes io) s) = passwords s
       ∧ disk (exec (CredentialStore.delete name Yes io) s) = disk s
       ∧ outcomes (CredentialStore.delete name Yes io) s = []).
Proof.
  intros Habsent.
  assert (Hget : retrieved s name = EmptyString)
    by (unfold retrieved; rewrite Habsent; reflexivity).
  split; [|split].
  - split; [exact Hget|]. split; [rewrite get_shown, Hget; reflexivity|].
    split; [apply get_outcomes|].
    intros s' Hs'. rewrite !get_shown, Hget. unfold retrieved. rewrite Hs'.
    reflexivity.
  - intros new_secret io Hsecret.
    rewrite update_passwords by assumption.
    split; [apply lookup_insert_eq|].
    split; [apply update_written_outcomes; assumption|].
    split; [intros Hfree; apply map_size_insert_None; exact Hfree|].
    split; [intros Hname; apply map_size_insert_None; rewrite Hname; exact Habsent|].
    intros Hthere.
    split; [apply map_size_insert_Some; exact Hthere|].
    split; [apply dom_insert_lookup_L; exact Hthere|].
    rewrite lookup_insert_ne; [exact Habsent|].
    intros Heq. rewrite Heq, Habsent in Hthere. destruct Hthere as [v Hv].
    discriminate Hv.
  - intros io. unfold returned, exec.
    rewrite (delete_absent name s io Habsent). cbn.
    repeat split.
    apply (outcomes_intro _ _ [delete_question_box name]).
    unfold exec. rewrite (delete_absent name s io Habsent). reflexivity.
Qed.

Lemma name_not_in_store_witness :
  passwords fresh_install !! "github" = None
  ∧ retrieved fresh_install "github" = EmptyString
  ∧ passwords (exec (CredentialStore.update "github" "Sup3r$ecret1" Written) fresh_install)
      !! strip "github" = Some (strip "Sup3r$ecret1")
  ∧ returned (CredentialStore.delete "github" Yes Written) fresh_install
    = Raise (KeyError "github")
  ∧ passwords (installed_with {["github" := "Sup3r$ecret1"]}) !! " github" = None
  ∧ size (passwords (exec (CredentialStore.update " github" "N3w$ecret!" Written)
                       (installed_with {["github" := "Sup3r$ecret1"]})))
    = size (passwords (installed_with {["github" := "Sup3r$ecret1"]})).
Proof.
  assert (H : passwords fresh_install !! "github" = None)
    by (vm_compute; reflexivity).
  assert (H' : passwords (installed_with {["github" := "Sup3r$ecret1"]}) !! " github"
               = None)
    by (vm_compute; reflexivity).
  destruct (name_not_in_store fresh_install "github" H)
    as ((Hget & _) & Hupd & Hdel).
  destruct (name_not_in_store (installed_with {["github" := "Sup3r$ecret1"]})
              " github" H') as (_ & Hupd' & _).
  split; [exact H|]. split; [exact Hget|]. split.
  { apply (Hupd "Sup3r$ecret1" Written). vm_compute. discriminate. }
  split; [apply (Hdel Written)|]. split; [exact H'|].
  assert (Hs : strip "N3w$ecret!" ≠ EmptyString) by (vm_compute; discriminate).
  destruct (Hupd' "N3w$ecret!" Written Hs) as (_ & _ & _ & _ & Hsame).
  apply Hsame. vm_compute. eexists. reflexivity.
Defined.

(** A secret with a blank on either side that meets the default policy. *)
Lemma padded_secret_satisfies_defaults :
ValidationEngine.satisfies (settings fresh_install) " Sup3r$ecret1 ".
Proof.
exists (ValidationEngine.mkPolicy 8 20 true true true).
split; vm_compute; reflexivity.
Qed.

Lemma plain_secret_satisfies_defaults :
ValidationEngine.satisfies (settings fresh_install) "Sup3r$ecret1".
Proof.
exists (ValidationEngine.mkPolicy 8 20 true true true).
split; vm_compute; reflexivity.
Qed.

(** C4, as stated, fails: " Sup3r$ecret1 " has non-empty trimmed value and
  satisfies the default policy, but add then get returns it without its
  surrounding blanks. *)
Lemma padded_secret_comes_back_trimmed :
strip "github" ≠ EmptyString
∧ strip " Sup3r$ecret1 " ≠ EmptyString
∧ ValidationEngine.satisfies (settings fresh_install) " Sup3r$ecret1 "
∧ retrieved (exec (CredentialStore.add "github" " Sup3r$ecret1 " Written) fresh_install)
    "github" = "Sup3r$ecret1"
∧ retrieved (exec (CredentialStore.add "github" " Sup3r$ecret1 " Written) fresh_install)
    "github" ≠ " Sup3r$ecret1 "
∧ shown (CredentialStore.get "github")
    (exec (CredentialStore.add "github" " Sup3r$ecret1 " Written) fresh_install)
  = [password_box "github" "Sup3r$ecret1"].
Proof.
split; [vm_compute; discriminate|].
split; [vm_compute; discriminate|].
split; [exact padded_secret_satisfies_defaults|].
split; [vm_compute; reflexivity|].
split; [vm_compute; discriminate|].
vm_compute; reflexivity.
Qed.

(** C4 (amended): for every pair (name, secret) whose trimmed values are
  non-empty and where secret satisfies the current policy, add(name,
  secret) followed by get of the trimmed name returns the trimmed secret;
  it is exactly the secret passed to add when neither name nor secret has
  surrounding white space. *)
Theorem add_then_get
  (s : PasswordManager) (name secret : string)
  (io : write_outcome (gmap string string)) :
strip name ≠ EmptyString →
strip secret ≠ EmptyString →
ValidationEngine.satisfies (settings s) secret →
retrieved (exec (CredentialStore.add name secret io) s) (strip name)
  = strip secret
∧ shown (CredentialStore.get (strip name))
    (exec (CredentialStore.add name secret io) s)
  = [password_box (strip name) (strip secret)]
∧ (strip name = name → strip secret = secret →
   retrieved (exec (CredentialStore.add name secret io) s) name = secret).
Proof.
intros Hname Hsecret _.
assert (Hget : retrieved (exec (CredentialStore.add name secret io) s) (strip name)
               = strip secret).
{ unfold retrieved. rewrite add_passwords by assumption.
  rewrite lookup_insert_eq. reflexivity. }
split; [exact Hget|]. split.
- rewrite get_shown, Hget. reflexivity.
- intros Hn Hs. rewrite Hn, Hs in Hget. exact Hget.
Qed.

Lemma add_then_get_witness :
strip "github" ≠ EmptyString
∧ strip "Sup3r$ecret1" ≠ EmptyString
∧ ValidationEngine.satisfies (settings fresh_install) "Sup3r$ecret1"
∧ retrieved (exec (CredentialStore.add "github" "Sup3r$ecret1" Written) fresh_install)
    (strip "github") = strip "Sup3r$ecret1".
Proof.
assert (H1 : strip "github" ≠ EmptyString) by (vm_compute; discriminate).
assert (H2 : strip "Sup3r$ecret1" ≠ EmptyString) by (vm_compute; discriminate).
pose proof plain_secret_satisfies_defaults as H3.
split; [exact H1|]. split; [exact H2|]. split; [exact H3|].
exact (proj1 (add_then_get fresh_install "github" "Sup3r$ecret1" Written H1 H2 H3)).
Defined.

(** C5, as stated, fails: a secret with surrounding blanks is accepted by add
  and by update, and get returns it without them. *)
Lemma secret_is_not_stored_verbatim :
retrieved (exec (CredentialStore.add "github" "  pass word  " Written) fresh_install)
  "github" = "pass word"
∧ retrieved (exec (CredentialStore.add "github" "  pass word  " Written) fresh_install)
    "github" ≠ "  pass word  "
∧ retrieved (exec (CredentialStore.update "github" "  pass word  " Written)
               (installed_with {["github" := "Sup3r$ecret1"]}))
    "github" = "pass word"
∧ retrieved (exec (CredentialStore.update "github" "  pass word  " Written)
               (installed_with {["github" := "Sup3r$ecret1"]}))
    "github" ≠ "  pass word  ".
Proof.
split; [vm_compute; reflexivity|].
split; [vm_compute; discriminate|].
split; [vm_compute; reflexivity|].
vm_compute; discriminate.
Qed.

(** C5 (amended): for every secret accepted by add or update, the value
  later returned by get is the supplied string with its surrounding white
  space removed and nothing else changed; it is character-for-character
  the supplied string when that string has no surrounding white space. *)
Theorem secret_stored_stripped
  (s : PasswordManager) (name secret : string)
  (io : write_outcome (gmap string string)) :
strip secret ≠ EmptyString →
(strip name ≠ EmptyString →
 retrieved (exec (CredentialStore.add name secret io) s) (strip name)
   = strip secret)
∧ retrieved (exec (CredentialStore.update name secret io) s) (strip name)
  = strip secret
∧ (∃ l r, secret = l +:+ strip secret +:+ r
          ∧ all_space l = true ∧ all_space r = true)
∧ (strip secret = secret →
   retrieved (exec (CredentialStore.update name secret io) s) (strip name)
     = secret
   ∧ (strip name ≠ EmptyString →
      retrieved (exec (CredentialStore.add name secret io) s) (strip name)
        = secret)).
Proof.
intros Hsecret.
assert (Hadd : strip name ≠ EmptyString →
          retrieved (exec (CredentialStore.add name secret io) s) (strip name)
          = strip secret).
{ intros Hname. unfold retrieved. rewrite add_passwords by assumption.
  rewrite lookup_insert_eq. reflexivity. }
assert (Hupd : retrieved (exec (CredentialStore.update name secret io) s) (strip name)
               = strip secret).
{ unfold retrieved. rewrite update_passwords by assumption.
  rewrite lookup_insert_eq. reflexivity. }
split; [exact Hadd|]. split; [exact Hupd|]. split; [apply strip_middle|].
intros Hclean. rewrite Hclean in Hadd, Hupd. split; assumption.
Qed.

Lemma secret_stored_stripped_witness :
strip "  pass word  " ≠ EmptyString
∧ retrieved (exec (CredentialStore.update "github" "  pass word  " Written)
               (installed_with {["github" := "Sup3r$ecret1"]}))
    (strip "github") = strip "  pass word  ".
Proof.
assert (H : strip "  pass word  " ≠ EmptyString) by (vm_compute; discriminate).
split; [exact H|].
exact (proj1 (proj2 (secret_stored_stripped
                       (installed_with {["github" := "Sup3r$ecret1"]})
                       "github" "  pass word  " Written H))).
Defined.




End StoreClaims.

(** ** Loading the files *)

Section Load.
Variable s : PasswordManager.

Lemma load_passwords_missing :
  passwords_json (disk s) = Missing →
  load_passwords s = (Val tt, set_passwords ∅ s).
Proof. intros H. run. rewrite H. reflexivity. Qed.

Lemma load_passwords_raises e :
  passwords_json (disk s) = Present (Raises e) →
  load_passwords s
  = (if is_JSONDecodeError e then Val tt else Raise e, set_passwords ∅ s).
Proof. intros H. run. rewrite H. cbn. destruct (is_JSONDecodeError e); reflexivity. Qed.

Lemma load_passwords_returns saved :
  passwords_json (disk s) = Present (Returns saved) →
  load_passwords s = (Val tt, set_passwords saved s).
Proof. intros H. run. rewrite H. reflexivity. Qed.

Lemma load_settings_missing :
  settings_json (disk s) = Missing →
  load_settings s = (Val tt, set_settings default_settings s).
Proof. intros H. run. rewrite H. reflexivity. Qed.

Lemma load_settings_raises e :
  settings_json (disk s) = Present (Raises e) →
  load_settings s
  = (if is_JSONDecodeError e then Val tt else Raise e,
     set_settings default_settings s).
Proof. intros H. run. rewrite H. cbn. destruct (is_JSONDecodeError e); reflexivity. Qed.

Lemma load_settings_returns saved :
  settings_json (disk s) = Present (Returns saved) →
  load_settings s
  = (Val tt, set_settings (dict_update default_settings saved) s).
Proof. intros H. run. rewrite H. reflexivity. Qed.

End Load.

(** C9, as stated, fails: a credential file that exists but cannot be read
    as text (bytes that are not in the expected encoding) makes the read
    raise [UnicodeDecodeError], a [ValueError] that is not a
    [JSONDecodeError]; [load_passwords] lets it through to the caller. *)
Lemma undecodable_file_is_propagated :
  is_JSONDecodeError ValueError = false
  ∧ returned load_passwords (blank (mkDisk (Present (Raises ValueError)) Missing))
    = Raise ValueError
  ∧ returned init (blank (mkDisk (Present (Raises ValueError)) Missing))
    = Raise ValueError.
Proof. repeat split; vm_compute; reflexivity. Qed.

(** C9 (amended): loading the credential file yields an empty store and no
    error when the file does not exist and when it exists but parsing it
    raises [JSONDecodeError] (text that is not JSON); nothing is shown and
    the files are not touched.  When reading or parsing the file raises any
    other exception, that exception is propagated to the caller, the store
    being left empty. *)
Theorem load_passwords_soft_failure (s : PasswordManager) :
  (passwords_json (disk s) = Missing
   ∨ passwords_json (disk s) = Present (Raises JSONDecodeError) →
   returned load_passwords s = Val tt
   ∧ passwords (exec load_passwords s) = ∅
   ∧ shown load_passwords s = []
   ∧ disk (exec load_passwords s) = disk s)
  ∧ (∀ e, passwords_json (disk s) = Present (Raises e) →
          is_JSONDecodeError e = false →
          returned load_passwords s = Raise e
          ∧ passwords (exec load_passwords s) = ∅
          ∧ shown load_passwords s = []
          ∧ disk (exec load_passwords s) = disk s).
Proof.
  split.
  - intros [H | H]; unfold returned.
    + split; [rewrite (load_passwords_missing s H); reflexivity|].
      split; [unfold exec; rewrite (load_passwords_missing s H); reflexivity|].
      split; [apply shown_nothing|]; unfold exec;
        rewrite (load_passwords_missing s H); reflexivity.
    + split; [rewrite (load_passwords_raises s _ H); reflexivity|].
      split; [unfold exec; rewrite (load_passwords_raises s _ H); reflexivity|].
      split; [apply shown_nothing|]; unfold exec;
        rewrite (load_passwords_raises s _ H); reflexivity.
  - intros e H He. unfold returned.
    split; [rewrite (load_passwords_raises s _ H), He; reflexivity|].
    split; [unfold exec; rewrite (load_passwords_raises s _ H); reflexivity|].
    split; [apply shown_nothing|]; unfold exec;
      rewrite (load_passwords_raises s _ H); reflexivity.
Qed.

Lemma load_passwords_soft_failure_witness :
  (passwords_json (disk (blank (mkDisk (Present (Raises JSONDecodeError)) Missing)))
   = Missing
   ∨ passwords_json (disk (blank (mkDisk (Present (Raises JSONDecodeError)) Missing)))
     = Present (Raises JSONDecodeError))
  ∧ returned load_passwords (blank (mkDisk (Present (Raises JSONDecodeError)) Missing))
    = Val tt
  ∧ passwords (exec load_passwords (blank (mkDisk (Present (Raises JSONDecodeError)) Missing)))
    = ∅
  ∧ passwords_json (disk (blank (mkDisk (Present (Raises (OSError "[Errno 13] Permission denied")))
                                   Missing)))
    = Present (Raises (OSError "[Errno 13] Permission denied"))
  ∧ is_JSONDecodeError (OSError "[Errno 13] Permission denied") = false
  ∧ returned load_passwords
      (blank (mkDisk (Present (Raises (OSError "[Errno 13] Permission denied"))) Missing))
    = Raise (OSError "[Errno 13] Permission denied").
Proof.
  assert (H : passwords_json (disk (blank (mkDisk (Present (Raises JSONDecodeError)) Missing)))
              = Missing
              ∨ passwords_json (disk (blank (mkDisk (Present (Raises JSONDecodeError)) Missing)))
                = Present (Raises JSONDecodeError))
    by (right; reflexivity).
  destruct (load_passwords_soft_failure
              (blank (mkDisk (Present (Raises JSONDecodeError)) Missing)))
    as (Hsoft & _).
  destruct (Hsoft H) as (Hret & Hempty & _).
  destruct (load_passwords_soft_failure
              (blank (mkDisk (Present (Raises (OSError "[Errno 13] Permission denied")))
                        Missing)))
    as (_ & Hhard).
  split; [exact H|]. split; [exact Hret|]. split; [exact Hempty|].
  split; [reflexivity|]. split; [reflexivity|].
  exact (proj1 (Hhard _ eq_refl eq_refl)).
Defined.

(** C8, as stated, fails: a key of the settings file that the program does
    not know is copied into the loaded configuration. *)
Lemma unknown_key_is_loaded :
  default_settings !! "theme" = None
  ∧ returned load_settings (blank themed_disk) = Val tt
  ∧ settings (exec load_settings (blank themed_disk)) !! "theme"
    = Some (JStr "dark").
Proof. repeat split; vm_compute; reflexivity. Qed.

(** C8 (amended): loading the settings starts from the defaults
    (min_length=8, max_length=20, require_special, require_capital and
    require_number true) and overlays the persisted values: for every
    persisted policy file, a key missing from the file keeps its default
    value, and every key of the file, known or not, appears in the loaded
    configuration with the file's value. *)
Theorem load_settings_overlays
    (s : PasswordManager) (saved : gmap string json) :
  settings_json (disk s) = Present (Returns saved) →
  returned load_settings s = Val tt
  ∧ (default_settings !! "min_length" = Some (JInt 8)
     ∧ default_settings !! "max_length" = Some (JInt 20)
     ∧ default_settings !! "require_special" = Some (JBool true)
     ∧ default_settings !! "require_capital" = Some (JBool true)
     ∧ default_settings !! "require_number" = Some (JBool true)
     ∧ dom default_settings
       = {["min_length"; "max_length"; "require_special"; "require_capital";
           "require_number"]})
  ∧ (∀ key, saved !! key = None →
       settings (exec load_settings s) !! key = default_settings !! key)
  ∧ (∀ key value, saved !! key = Some value →
       settings (exec load_settings s) !! key = Some value).
Proof.
  intros H. unfold returned, exec. rewrite (load_settings_returns s saved H). cbn.
  split; [reflexivity|]. split.
  - repeat (split; [vm_compute; reflexivity|]).
    unfold default_settings. rewrite !dom_insert_L, dom_empty_L. set_solver.
  - unfold dict_update. split.
    + intros key Hkey. apply lookup_union_r. exact Hkey.
    + intros key value Hkey. apply lookup_union_Some_l. exact Hkey.
Qed.

Lemma load_settings_overlays_witness :
  settings_json (disk (blank themed_disk))
  = Present (Returns {["theme" := JStr "dark"]})
  ∧ settings (exec load_settings (blank themed_disk)) !! "min_length"
    = default_settings !! "min_length"
  ∧ settings (exec load_settings (blank themed_disk)) !! "theme"
    = Some (JStr "dark").
Proof.
  assert (H : settings_json (disk (blank themed_disk))
              = Present (Returns {["theme" := JStr "dark"]})) by reflexivity.
  destruct (load_settings_overlays _ _ H) as (_ & _ & Hkeep & Hcopy).
  split; [exact H|]. split.
  - apply Hkeep. vm_compute. reflexivity.
  - apply Hcopy. vm_compute. reflexivity.
Defined.

(** ** Saving the settings *)

Section SaveSettingsFacts.
Variable int : string → option Z.
Variable s : PasswordManager.

Lemma save_settings_unparsed_min io :
  int (min_length_input s) = None →
  save_settings int io s = (Val tt, set_dialogs (dialogs s ++ [not_numbers_box]) s).
Proof. intros H. run. rewrite H. reflexivity. Qed.

Lemma save_settings_unparsed_max io lo :
  int (min_length_input s) = Some lo →
  int (max_length_input s) = None →
  save_settings int io s = (Val tt, set_dialogs (dialogs s ++ [not_numbers_box]) s).
Proof. intros H1 H2. run. rewrite H1. cbn. rewrite H2. reflexivity. Qed.

Section Parsed.
Variables lo hi : Z.
Hypothesis min_parsed : int (min_length_input s) = Some lo.
Hypothesis max_parsed : int (max_length_input s) = Some hi.

Let updated :=
  <["max_length" := JInt hi]> (<["min_length" := JInt lo]> (settings s)).

Lemma save_settings_bad_bounds io :
  lo < 1 ∨ hi < lo →
  save_settings int io s = (Val tt, set_dialogs (dialogs s ++ [bad_bounds_box]) s).
Proof.
  intros H. run. rewrite min_parsed. cbn. rewrite max_parsed. cbn.
  assert ((lo <? 1) || (hi <? lo) = true) as ->.
  { apply orb_true_iff. rewrite !Z.ltb_lt. exact H. }
  reflexivity.
Qed.

Hypothesis bounds_ok : 1 ≤ lo ∧ lo ≤ hi.

Lemma save_settings_guard : (lo <? 1) || (hi <? lo) = false.
Proof. apply orb_false_iff. rewrite !Z.ltb_ge. exact bounds_ok. Qed.

Lemma save_settings_written :
  save_settings int Written s
  = (Val tt,
     set_stacked_widget 0
       (set_dialogs (dialogs s ++ [success_box "Settings saved successfully!"])
          (set_disk
             (write_file settings_file (Present (Returns updated)) (disk s))
             (set_settings updated s)))).
Proof.
  run. rewrite min_parsed. cbn. rewrite max_parsed. cbn.
  rewrite save_settings_guard. reflexivity.
Qed.

Lemma save_settings_write_failed e residue :
  save_settings int (WriteRaises e residue) s
  = (Val tt,
     set_dialogs (dialogs s ++ [failed_to_save_box e])
       (set_disk (write_file settings_file residue (disk s))
          (set_settings updated s))).
Proof.
  run. rewrite min_parsed. cbn. rewrite max_parsed. cbn.
  rewrite save_settings_guard. reflexivity.
Qed.

End Parsed.

(** The cases of [save_settings]: it either refuses and changes nothing
    but the message log, or assigns the two lengths and attempts one write. *)
Lemma save_settings_cases io :
  (invalid_lengths int (min_length_input s) (max_length_input s)
   ∧ ∃ box, outcome_of box = Some InvalidInput
            ∧ save_settings int io s
              = (Val tt, set_dialogs (dialogs s ++ [box]) s))
  ∨ (¬ invalid_lengths int (min_length_input s) (max_length_input s)
     ∧ ∃ lo hi box d,
         int (min_length_input s) = Some lo
         ∧ int (max_length_input s) = Some hi
         ∧ outcome_of box ≠ Some InvalidInput
         ∧ outcome_of box ≠ None
         ∧ exec (save_settings int io) s
           = set_stacked_widget (stacked_widget (exec (save_settings int io) s))
               (set_dialogs (dialogs s ++ [box])
                  (set_disk d
                     (set_settings
                        (<["max_length" := JInt hi]>
                           (<["min_length" := JInt lo]> (settings s))) s)))).
Proof.
  unfold invalid_lengths.
  destruct (int (min_length_input s)) as [lo|] eqn:Hmin.
  2:{ left. split; [exact I|]. exists not_numbers_box.
      split; [reflexivity | apply save_settings_unparsed_min; exact Hmin]. }
  destruct (int (max_length_input s)) as [hi|] eqn:Hmax.
  2:{ left. split; [exact I|]. exists not_numbers_box.
      split; [reflexivity | apply (save_settings_unparsed_max io lo); assumption]. }
  destruct (decide (lo < 1 ∨ hi < lo)) as [Hbad | Hgood].
  - left. split; [exact Hbad|]. exists bad_bounds_box.
    split; [reflexivity | apply (save_settings_bad_bounds lo hi); assumption].
  - right. split; [exact Hgood|].
    assert (Hok : 1 ≤ lo ∧ lo ≤ hi) by lia.
    destruct io as [|e residue].
    + exists lo, hi, (success_box "Settings saved successfully!"),
        (write_file settings_file
           (Present (Returns (<["max_length" := JInt hi]>
                                (<["min_length" := JInt lo]> (settings s)))))
           (disk s)).
      split; [reflexivity|]. split; [reflexivity|].
      split; [discriminate|]. split; [discriminate|].
      unfold exec. rewrite (save_settings_written lo hi Hmin Hmax Hok). reflexivity.
    + exists lo, hi, (failed_to_save_box e),
        (write_file settings_file residue (disk s)).
      split; [reflexivity|]. split; [reflexivity|].
      split; [discriminate|]. split; [discriminate|].
      unfold exec. rewrite (save_settings_write_failed lo hi Hmin Hmax Hok). reflexivity.
Qed.

End SaveSettingsFacts.

(** [save_settings] touches no key of the settings other than the two
    lengths. *)
Lemma save_settings_other_keys
    (int : string → option Z) (s : PasswordManager)
    (io : write_outcome (gmap string json)) (key : string) :
  key ≠ "min_length" → key ≠ "max_length" →
  settings (exec (save_settings int io) s) !! key = settings s !! key.
Proof.
  intros Hmin Hmax.
  destruct (save_settings_cases int s io)
    as [(_ & box & _ & Hrun) | (_ & lo & hi & box & d & _ & _ & _ & _ & Hrun)].
  - unfold exec. rewrite Hrun. reflexivity.
  - apply (f_equal settings) in Hrun. cbn in Hrun. rewrite Hrun.
    rewrite !lookup_insert_ne by congruence. reflexivity.
Qed.

(** C7: saving the settings returns InvalidInput exactly when the minimum
    length is below 1, or the maximum length is below the minimum, or one of
    the two inputs is not parseable as an integer; in each of these cases
    the in-memory configuration and the files are not modified. *)
Theorem save_settings_invalid_input
    (int : string → option Z) (s : PasswordManager)
    (io : write_outcome (gmap string json)) :
  (outcomes (save_settings int io) s = [InvalidInput]
   ↔ invalid_lengths int (min_length_input s) (max_length_input s))
  ∧ (invalid_lengths int (min_length_input s) (max_length_input s) →
     settings (exec (save_settings int io) s) = settings s
     ∧ disk (exec (save_settings int io) s) = disk s).
Proof.
  destruct (save_settings_cases int s io)
    as [(Hbad & box & Hbox & Hrun)
       | (Hgood & lo & hi & box & d & _ & _ & Hbox & Hsome & Hrun)].
  - assert (Hout : outcomes (save_settings int io) s = [InvalidInput]).
    { rewrite (outcomes_intro _ _ [box]).
      - cbn. rewrite Hbox. reflexivity.
      - unfold exec. rewrite Hrun. reflexivity. }
    split; [split; intros _; assumption|].
    intros _. unfold exec. rewrite Hrun. split; reflexivity.
  - split; [|intros Hbad; contradiction].
    split; [|intros Hbad; contradiction].
    intros Hout. exfalso.
    rewrite (outcomes_intro _ _ [box]) in Hout.
    + cbn in Hout. destruct (outcome_of box) as [o|]; [|contradiction].
      apply Hbox. congruence.
    + apply (f_equal dialogs) in Hrun. exact Hrun.
Qed.

Lemma save_settings_invalid_input_witness :
  invalid_lengths PyInt.int (min_length_input (settings_typed "5" "3"))
    (max_length_input (settings_typed "5" "3"))
  ∧ invalid_lengths PyInt.int (min_length_input (settings_typed "0" "10"))
      (max_length_input (settings_typed "0" "10"))
  ∧ outcomes (save_settings PyInt.int Written) (settings_typed "5" "3")
    = [InvalidInput]
  ∧ outcomes (save_settings PyInt.int Written) (settings_typed "0" "10")
    = [InvalidInput]
  ∧ settings (exec (save_settings PyInt.int Written) (settings_typed "5" "3"))
    = settings (settings_typed "5" "3").
Proof.
  assert (H1 : invalid_lengths PyInt.int (min_length_input (settings_typed "5" "3"))
                 (max_length_input (settings_typed "5" "3")))
    by (vm_compute; right; reflexivity).
  assert (H2 : invalid_lengths PyInt.int (min_length_input (settings_typed "0" "10"))
                 (max_length_input (settings_typed "0" "10")))
    by (vm_compute; left; reflexivity).
  destruct (save_settings_invalid_input PyInt.int (settings_typed "5" "3") Written)
    as (Hiff1 & Hkeep1).
  destruct (save_settings_invalid_input PyInt.int (settings_typed "0" "10") Written)
    as (Hiff2 & _).
  split; [exact H1|]. split; [exact H2|].
  split; [exact (proj2 Hiff1 H1)|]. split; [exact (proj2 Hiff2 H2)|].
  exact (proj1 (Hkeep1 H1)).
Defined.

(** C10: every call to [save_settings], whatever its inputs and outcome,
    leaves [require_special], [require_capital] and [require_number] of the
    in-memory configuration as they were. *)
Theorem save_settings_keeps_flags
    (int : string → option Z) (s : PasswordManager)
    (io : write_outcome (gmap string json)) :
  settings (exec (save_settings int io) s) !! "require_special"
    = settings s !! "require_special"
  ∧ settings (exec (save_settings int io) s) !! "require_capital"
    = settings s !! "require_capital"
  ∧ settings (exec (save_settings int io) s) !! "require_number"
    = settings s !! "require_number".
Proof.
  repeat split; apply save_settings_other_keys; discriminate.
Qed.

(** * Further properties of the program *)

Ltac run_all := unfold reset_settings, getitem; run.

(** ** White space *)

Section Blank.
Import PyStr PyStrFacts.

Lemma all_space_app (l r : string) :
  all_space (l +:+ r) = all_space l && all_space r.
Proof.
  induction l as [|c l IH]; [reflexivity|].
  change (String c l +:+ r) with (String c (l +:+ r)). simpl.
  rewrite IH. apply andb_assoc.
Qed.

Lemma lstrip_all_space (s : string) : all_space s = true → lstrip s = EmptyString.
Proof.
  induction s as [|c t IH]; simpl; [reflexivity|].
  intros H. apply andb_true_iff in H as [-> Ht]. exact (IH Ht).
Qed.

(** [strip] returns the empty string exactly on the strings made of white
    space only, the empty string among them. *)
Lemma strip_empty_iff (s : string) :
  strip s = EmptyString ↔ all_space s = true.
Proof.
  split.
  - intros H. destruct (strip_middle s) as (l & r & Hs & Hl & Hr).
    rewrite H in Hs. rewrite Hs.
    change (EmptyString +:+ r) with r.
    rewrite all_space_app, Hl, Hr. reflexivity.
  - intros H. unfold strip. rewrite (lstrip_all_space s H). reflexivity.
Qed.

Lemma strip_trimmed (s : string) : strip s ≠ EmptyString → trimmed (strip s).
Proof. intros H. split; [apply strip_idemp | exact H]. Qed.

End Blank.

(** ** Writing a file *)

(** X1: [save_to_json] never raises: it returns [True] when the write
    completes and [False] when it raises, reporting success (when given a
    message) or the error; it leaves the two dicts and the other file alone. *)
Theorem save_to_json_reports
    (filename : path) (data : content_of filename) (success_msg : option string)
    (io : write_outcome (content_of filename)) (s : PasswordManager) :
  returned (save_to_json filename data success_msg io) s
    = Val (match io with Written => true | WriteRaises _ _ => false end)
  ∧ outcomes (save_to_json filename data success_msg io) s
    = match io with
      | Written =>
          match success_msg with
          | Some msg => if PyStr.truthy msg then [Ok] else []
          | None => []
          end
      | WriteRaises _ _ => [PersistenceError]
      end
  ∧ passwords (exec (save_to_json filename data success_msg io) s) = passwords s
  ∧ settings (exec (save_to_json filename data success_msg io) s) = settings s
  ∧ match filename with
    | passwords_file =>
        settings_json (disk (exec (save_to_json filename data success_msg io) s))
        = settings_json (disk s)
    | settings_file =>
        passwords_json (disk (exec (save_to_json filename data success_msg io) s))
        = passwords_json (disk s)
    end.
Proof.
  destruct filename, io as [|e residue], success_msg as [msg|];
    try destruct (PyStr.truthy msg) eqn:Hmsg;
    (split; [unfold returned; run; rewrite ?Hmsg; reflexivity|]);
    (split; [|unfold exec; run; rewrite ?Hmsg; repeat split; reflexivity]).
  all: first
    [ apply (outcomes_intro _ _ [success_box msg]);
      unfold exec; run; rewrite Hmsg; reflexivity
    | apply (outcomes_intro _ _ [failed_to_save_box e]);
      unfold exec; run; rewrite ?Hmsg; reflexivity
    | apply (outcomes_intro _ _ []);
      unfold exec; run; rewrite ?Hmsg; cbn; rewrite app_nil_r; reflexivity ].
Qed.

(** ** The store and its file *)

Section StoreAndFile.
Import PyStr PyStrFacts.

Lemma load_of_synced (s : PasswordManager) :
  synced s →
  returned load_passwords s = Val tt
  ∧ passwords (exec load_passwords s) = passwords s.
Proof.
  intros H. unfold returned, exec.
  rewrite (load_passwords_returns s (passwords s) H). split; reflexivity.
Qed.

Lemma restart_of_synced (s : PasswordManager) :
  synced s → passwords (exec init (blank (disk s))) = passwords s.
Proof.
  unfold synced. intros H. unfold exec, init. run. rewrite H. cbn.
  destruct (settings_json (disk s)) as [|[e|saved]]; cbn;
    [reflexivity | destruct (is_JSONDecodeError e); reflexivity | reflexivity].
Qed.

Lemma add_written_synced (s : PasswordManager) (name secret : string) :
  strip name ≠ EmptyString → strip secret ≠ EmptyString →
  synced (exec (CredentialStore.add name secret Written) s)
  ∧ listed (exec (CredentialStore.add name secret Written) s).
Proof.
  intros Hn Hs. unfold synced, listed, exec.
  rewrite add_written by assumption. split; reflexivity.
Qed.

Lemma update_written_synced (s : PasswordManager) (name secret : string) :
  strip secret ≠ EmptyString →
  synced (exec (CredentialStore.update name secret Written) s)
  ∧ listed (exec (CredentialStore.update name secret Written) s).
Proof.
  intros Hs. unfold synced, listed, exec.
  rewrite update_written by assumption. split; reflexivity.
Qed.

Lemma delete_written_synced (s : PasswordManager) (name : string) :
  is_Some (passwords s !! name) →
  synced (exec (CredentialStore.delete name Yes Written) s)
  ∧ listed (exec (CredentialStore.delete name Yes Written) s).
Proof.
  intros Hp. unfold synced, listed, exec.
  rewrite delete_written by assumption. split; reflexivity.
Qed.

(** X2: after an add, an update or a delete whose write completes, the
    credential file loads back to the mapping held in memory, both through
    [load_passwords] and in a window started anew on the files. *)
Theorem saved_store_loads_back
    (s : PasswordManager) (name secret victim : string) :
  strip name ≠ EmptyString →
  strip secret ≠ EmptyString →
  is_Some (passwords s !! victim) →
  (passwords (exec load_passwords (exec (CredentialStore.add name secret Written) s))
     = passwords (exec (CredentialStore.add name secret Written) s)
   ∧ passwords (exec init (blank (disk (exec (CredentialStore.add name secret Written) s))))
     = passwords (exec (CredentialStore.add name secret Written) s))
  ∧ (passwords (exec load_passwords (exec (CredentialStore.update name secret Written) s))
     = passwords (exec (CredentialStore.update name secret Written) s)
   ∧ passwords (exec init (blank (disk (exec (CredentialStore.update name secret Written) s))))
     = passwords (exec (CredentialStore.update name secret Written) s))
  ∧ (passwords (exec load_passwords (exec (CredentialStore.delete victim Yes Written) s))
     = passwords (exec (CredentialStore.delete victim Yes Written) s)
   ∧ passwords (exec init (blank (disk (exec (CredentialStore.delete victim Yes Written) s))))
     = passwords (exec (CredentialStore.delete victim Yes Written) s)).
Proof.
  intros Hn Hs Hv.
  pose proof (proj1 (add_written_synced s name secret Hn Hs)) as Ha.
  pose proof (proj1 (update_written_synced s name secret Hs)) as Hu.
  pose proof (proj1 (delete_written_synced s victim Hv)) as Hd.
  repeat split;
    first [ apply load_of_synced; assumption | apply restart_of_synced; assumption ].
Qed.

Lemma saved_store_loads_back_witness :
  strip "gitlab" ≠ EmptyString
  ∧ strip " N3w$ecret! " ≠ EmptyString
  ∧ is_Some (passwords (installed_with {["github" := "Sup3r$ecret1"]}) !! "github")
  ∧ passwords (exec init (blank (disk (exec (CredentialStore.add "gitlab" " N3w$ecret! " Written)
                                          (installed_with {["github" := "Sup3r$ecret1"]})))))
    = passwords (exec (CredentialStore.add "gitlab" " N3w$ecret! " Written)
                   (installed_with {["github" := "Sup3r$ecret1"]})).
Proof.
  assert (H1 : strip "gitlab" ≠ EmptyString) by (vm_compute; discriminate).
  assert (H2 : strip " N3w$ecret! " ≠ EmptyString) by (vm_compute; discriminate).
  assert (H3 : is_Some (passwords (installed_with {["github" := "Sup3r$ecret1"]}) !! "github"))
    by (vm_compute; eexists; reflexivity).
  split; [exact H1|]. split; [exact H2|]. split; [exact H3|].
  exact (proj2 (proj1 (saved_store_loads_back
                         (installed_with {["github" := "Sup3r$ecret1"]})
                         "gitlab" " N3w$ecret! " "github" H1 H2 H3))).
Defined.

(** X3: when the main page lists exactly the stored names, it still does
    after every add, update or delete whose write completes or that is
    refused or declined, and after every retrieve. *)
Theorem main_page_lists_store
    (s : PasswordManager) (name secret : string) (answer : StandardButton) :
  listed s →
  listed (exec (CredentialStore.add name secret Written) s)
  ∧ listed (exec (CredentialStore.update name secret Written) s)
  ∧ listed (exec (CredentialStore.delete name answer Written) s)
  ∧ listed (exec (CredentialStore.get name) s).
Proof.
  intros H. split; [|split; [|split]].
  - destruct (decide (strip name = EmptyString)) as [Hn|Hn];
      [unfold listed, exec; rewrite add_rejected by (left; exact Hn); exact H|].
    destruct (decide (strip secret = EmptyString)) as [Hs|Hs];
      [unfold listed, exec; rewrite add_rejected by (right; exact Hs); exact H|].
    apply add_written_synced; assumption.
  - destruct (decide (strip secret = EmptyString)) as [Hs|Hs];
      [unfold listed, exec; rewrite update_rejected by exact Hs; exact H|].
    apply update_written_synced; assumption.
  - destruct answer; [|exact H].
    destruct (passwords s !! name) as [old|] eqn:Hp.
    + apply delete_written_synced. rewrite Hp. eexists; reflexivity.
    + unfold listed, exec. rewrite delete_absent by exact Hp. exact H.
  - exact H.
Qed.

Lemma main_page_lists_store_witness :
  listed fresh_install
  ∧ listed (exec (CredentialStore.add "github" "Sup3r$ecret1" Written) fresh_install)
  ∧ listed (exec (CredentialStore.delete "github" Yes Written) fresh_install).
Proof.
  assert (H : listed fresh_install) by reflexivity.
  destruct (main_page_lists_store fresh_install "github" "Sup3r$ecret1" Yes H)
    as (Ha & _ & Hd & _).
  split; [exact H|]. split; [exact Ha | exact Hd].
Defined.

(** X4: when the write of a confirmed delete fails, the main page is not
    refreshed: the row of the name stays although the store no longer holds
    it.  Pressing Delete on that row again raises [KeyError], whatever the
    write would do, and pressing Retrieve shows an empty password. *)
Theorem stale_row_after_failed_delete
    (s : PasswordManager) (name : string)
    (e : exn) (residue : file (gmap string string)) :
  listed s →
  is_Some (passwords s !! name) →
  name ∈ password_list (exec (CredentialStore.delete name Yes (WriteRaises e residue)) s)
  ∧ passwords (exec (CredentialStore.delete name Yes (WriteRaises e residue)) s) !! name
    = None
  ∧ (∀ io,
       returned (CredentialStore.delete name Yes io)
         (exec (CredentialStore.delete name Yes (WriteRaises e residue)) s)
       = Raise (KeyError name))
  ∧ shown (CredentialStore.get name)
      (exec (CredentialStore.delete name Yes (WriteRaises e residue)) s)
    = [password_box name EmptyString].
Proof.
  intros Hl Hp.
  assert (Hgone : passwords (exec (CredentialStore.delete name Yes (WriteRaises e residue)) s)
                    !! name = None).
  { rewrite delete_passwords by assumption. apply lookup_delete_eq. }
  split; [|split; [exact Hgone|split]].
  - unfold exec. rewrite delete_write_failed by assumption. cbn.
    rewrite Hl. apply elem_of_dom. exact Hp.
  - intros io. unfold returned. rewrite delete_absent by exact Hgone. reflexivity.
  - rewrite get_shown. unfold retrieved. rewrite Hgone. reflexivity.
Qed.

Lemma stale_row_after_failed_delete_witness :
  listed (installed_with {["github" := "Sup3r$ecret1"]})
  ∧ is_Some (passwords (installed_with {["github" := "Sup3r$ecret1"]}) !! "github")
  ∧ "github" ∈ password_list (exec (CredentialStore.delete "github" Yes disk_full)
                                (installed_with {["github" := "Sup3r$ecret1"]}))
  ∧ returned (CredentialStore.delete "github" Yes Written)
      (exec (CredentialStore.delete "github" Yes disk_full)
         (installed_with {["github" := "Sup3r$ecret1"]}))
    = Raise (KeyError "github").
Proof.
  assert (H1 : listed (installed_with {["github" := "Sup3r$ecret1"]})) by reflexivity.
  assert (H2 : is_Some (passwords (installed_with {["github" := "Sup3r$ecret1"]}) !! "github"))
    by (vm_compute; eexists; reflexivity).
  destruct (stale_row_after_failed_delete
              (installed_with {["github" := "Sup3r$ecret1"]}) "github"
              (OSError "[Errno 28] No space left on device")
              (Present (Raises JSONDecodeError)) H1 H2)
    as (Hrow & _ & Hagain & _).
  split; [exact H1|]. split; [exact H2|]. split; [exact Hrow|].
  exact (Hagain Written).
Defined.

End StoreAndFile.

(** ** The forms *)

Section Forms.
Import PyStr PyStrFacts.

(** X5: an accepted add whose write completes empties the two fields and
    shows the main page; when the write fails the typed texts stay in the
    fields, the page and the rows of the main page do not change, and
    pressing Save again, without typing anything, stores the same entry,
    writes the file and lists the name. *)
Theorem add_form_after_save
    (s : PasswordManager) (name secret : string)
    (e : exn) (residue : file (gmap string string)) :
  strip name ≠ EmptyString →
  strip secret ≠ EmptyString →
  (program_input (exec (CredentialStore.add name secret Written) s) = EmptyString
   ∧ password_input (exec (CredentialStore.add name secret Written) s) = EmptyString
   ∧ stacked_widget (exec (CredentialStore.add name secret Written) s) = 0%nat)
  ∧ (program_input (exec (CredentialStore.add name secret (WriteRaises e residue)) s)
     = name
   ∧ password_input (exec (CredentialStore.add name secret (WriteRaises e residue)) s)
     = secret
   ∧ stacked_widget (exec (CredentialStore.add name secret (WriteRaises e residue)) s)
     = stacked_widget s
   ∧ password_list (exec (CredentialStore.add name secret (WriteRaises e residue)) s)
     = password_list s)
  ∧ (outcomes (save_password Written)
       (exec (CredentialStore.add name secret (WriteRaises e residue)) s) = [Ok]
   ∧ passwords (exec (save_password Written)
                  (exec (CredentialStore.add name secret (WriteRaises e residue)) s))
     = <[strip name := strip secret]> (passwords s)
   ∧ synced (exec (save_password Written)
               (exec (CredentialStore.add name secret (WriteRaises e residue)) s))
   ∧ listed (exec (save_password Written)
               (exec (CredentialStore.add name secret (WriteRaises e residue)) s))).
Proof.
  intros Hn Hs. split; [|split].
  - unfold exec. rewrite add_written by assumption. repeat split.
  - unfold exec. rewrite add_write_failed by assumption. repeat split.
  - pose proof (add_passwords name secret s Hn Hs (WriteRaises e residue)) as Hfirst.
    assert (Hretry :
      save_password Written
        (exec (CredentialStore.add name secret (WriteRaises e residue)) s)
      = CredentialStore.add name secret Written
          (exec (CredentialStore.add name secret (WriteRaises e residue)) s)).
    { unfold exec. rewrite add_write_failed by assumption. reflexivity. }
    set (s1 := exec (CredentialStore.add name secret (WriteRaises e residue)) s) in *.
    clearbody s1.
    assert (Hexec : exec (save_password Written) s1
                    = exec (CredentialStore.add name secret Written) s1)
      by (unfold exec; rewrite Hretry; reflexivity).
    split.
    { unfold outcomes, shown. rewrite Hexec.
      apply add_written_outcomes; assumption. }
    rewrite Hexec. split; [|apply add_written_synced; assumption].
    rewrite add_passwords by assumption. rewrite Hfirst. apply insert_insert_eq.
Qed.

Lemma add_form_after_save_witness :
  strip "github" ≠ EmptyString
  ∧ strip "Sup3r$ecret1" ≠ EmptyString
  ∧ program_input (exec (CredentialStore.add "github" "Sup3r$ecret1" disk_full) fresh_install)
    = "github"
  ∧ synced (exec (save_password Written)
              (exec (CredentialStore.add "github" "Sup3r$ecret1" disk_full) fresh_install)).
Proof.
  assert (H1 : strip "github" ≠ EmptyString) by (vm_compute; discriminate).
  assert (H2 : strip "Sup3r$ecret1" ≠ EmptyString) by (vm_compute; discriminate).
  destruct (add_form_after_save fresh_install "github" "Sup3r$ecret1"
              (OSError "[Errno 28] No space left on device")
              (Present (Raises JSONDecodeError)) H1 H2)
    as (_ & (Hkept & _) & (_ & _ & Hsync & _)).
  split; [exact H1|]. split; [exact H2|]. split; [exact Hkept | exact Hsync].
Defined.

End Forms.

(** ** Deleting *)

(** X6: [delete_password] changes the store only when the user answers
    Yes.  With No nothing but the question box is added and no write is
    attempted; with Yes on a stored name exactly that entry goes, whatever
    the write does, and when the write completes the file and the main page
    follow. *)
Theorem delete_removes_one_entry
    (s : PasswordManager) (name : string)
    (io : write_outcome (gmap string string)) :
  is_Some (passwords s !! name) →
  (CredentialStore.delete name No io s
   = (Val tt, set_dialogs (dialogs s ++ [delete_question_box name]) s))
  ∧ passwords (exec (CredentialStore.delete name Yes io) s) !! name = None
  ∧ (∀ other, other ≠ name →
       passwords (exec (CredentialStore.delete name Yes io) s) !! other
       = passwords s !! other)
  ∧ S (size (passwords (exec (CredentialStore.delete name Yes io) s)))
    = size (passwords s)
  ∧ outcomes (CredentialStore.delete name Yes Written) s = [Ok]
  ∧ synced (exec (CredentialStore.delete name Yes Written) s)
  ∧ name ∉ password_list (exec (CredentialStore.delete name Yes Written) s).
Proof.
  intros Hp. split; [reflexivity|].
  rewrite delete_passwords by assumption.
  split; [apply lookup_delete_eq|].
  split; [intros other Hne; apply lookup_delete_ne; congruence|].
  split.
  { rewrite map_size_delete_Some by assumption.
    destruct Hp as [old Hold].
    assert (size (passwords s) ≠ 0%nat).
    { intros H0. apply map_size_empty_inv in H0. rewrite H0 in Hold.
      rewrite lookup_empty in Hold. discriminate. }
    lia. }
  split.
  { apply (outcomes_intro _ _ [delete_question_box name;
                               success_box "Password deleted successfully!"]).
    unfold exec. rewrite delete_written by assumption. cbn.
    rewrite <- app_assoc. reflexivity. }
  split; [apply delete_written_synced; assumption|].
  unfold exec. rewrite delete_written by assumption. cbn.
  rewrite dom_delete_L. apply not_elem_of_difference. right.
  apply elem_of_singleton. reflexivity.
Qed.

Lemma delete_removes_one_entry_witness :
  is_Some (passwords (installed_with {["github" := "Sup3r$ecret1"]}) !! "github")
  ∧ passwords (exec (CredentialStore.delete "github" Yes Written)
                 (installed_with {["github" := "Sup3r$ecret1"]})) !! "github"
    = None.
Proof.
  assert (H : is_Some (passwords (installed_with {["github" := "Sup3r$ecret1"]}) !! "github"))
    by (vm_compute; eexists; reflexivity).
  split; [exact H|].
  exact (proj1 (proj2 (delete_removes_one_entry
                         (installed_with {["github" := "Sup3r$ecret1"]})
                         "github" Written H))).
Defined.

(** ** What the forms refuse and what they store *)

Section Accepted.
Import PyStr PyStrFacts.

(** X7: add reports InvalidInput exactly when the name or the secret is
    empty or made of white space only, and update exactly when the new
    secret is; a refused add or update leaves the store, the files, the rows
    of the main page and the current page as they were. *)
Theorem blank_fields_are_refused
    (s : PasswordManager) (name secret : string)
    (io : write_outcome (gmap string string)) :
  (outcomes (CredentialStore.add name secret io) s = [InvalidInput]
   ↔ all_space name = true ∨ all_space secret = true)
  ∧ (outcomes (CredentialStore.update name secret io) s = [InvalidInput]
     ↔ all_space secret = true)
  ∧ (all_space name = true ∨ all_space secret = true →
     passwords (exec (CredentialStore.add name secret io) s) = passwords s
     ∧ disk (exec (CredentialStore.add name secret io) s) = disk s
     ∧ password_list (exec (CredentialStore.add name secret io) s) = password_list s
     ∧ stacked_widget (exec (CredentialStore.add name secret io) s) = stacked_widget s)
  ∧ (all_space secret = true →
     passwords (exec (CredentialStore.update name secret io) s) = passwords s
     ∧ disk (exec (CredentialStore.update name secret io) s) = disk s
     ∧ password_list (exec (CredentialStore.update name secret io) s) = password_list s).
Proof.
  rewrite <- !strip_empty_iff.
  split; [|split; [|split]].
  - split.
    + intros Hout.
      destruct (decide (strip name = EmptyString)) as [Hn|Hn]; [left; exact Hn|].
      destruct (decide (strip secret = EmptyString)) as [Hs|Hs]; [right; exact Hs|].
      exfalso. destruct io as [|e residue].
      * rewrite add_written_outcomes in Hout by assumption. discriminate.
      * rewrite add_write_failed_outcomes in Hout by assumption. discriminate.
    + intros H. apply (outcomes_intro _ _ [both_fields_box]).
      unfold exec. rewrite add_rejected by exact H. reflexivity.
  - split.
    + intros Hout.
      destruct (decide (strip secret = EmptyString)) as [Hs|Hs]; [exact Hs|].
      exfalso. destruct io as [|e residue].
      * rewrite update_written_outcomes in Hout by assumption. discriminate.
      * rewrite update_write_failed_outcomes in Hout by assumption. discriminate.
    + intros H. apply (outcomes_intro _ _ [empty_password_box]).
      unfold exec. rewrite update_rejected by exact H. reflexivity.
  - intros H. unfold exec. rewrite add_rejected by exact H. repeat split.
  - intros H. unfold exec. rewrite update_rejected by exact H. repeat split.
Qed.

Lemma blank_fields_are_refused_witness :
  all_space "   " = true
  ∧ outcomes (CredentialStore.add "github" "   " Written) fresh_install = [InvalidInput]
  ∧ passwords (exec (CredentialStore.add "github" "   " Written) fresh_install)
    = passwords fresh_install.
Proof.
  assert (H : all_space "   " = true) by reflexivity.
  destruct (blank_fields_are_refused fresh_install "github" "   " Written)
    as (Hadd & _ & Hkeep & _).
  split; [exact H|]. split.
  - apply Hadd. right. exact H.
  - apply Hkeep. right. exact H.
Defined.

(** X8: update files the secret under the trimmed name.  For a stored name
    with surrounding white space, which only a file edited by hand can
    bring, update leaves that entry as it is and writes the secret under
    the trimmed name. *)
Theorem update_of_padded_name
    (s : PasswordManager) (name old secret : string)
    (io : write_outcome (gmap string string)) :
  passwords s !! name = Some old →
  strip name ≠ name →
  strip secret ≠ EmptyString →
  passwords (exec (CredentialStore.update name secret io) s) !! name = Some old
  ∧ passwords (exec (CredentialStore.update name secret io) s) !! strip name
    = Some (strip secret)
  ∧ (passwords s !! strip name = None →
     size (passwords (exec (CredentialStore.update name secret io) s))
     = S (size (passwords s))).
Proof.
  intros Hold Hpad Hs. rewrite update_passwords by assumption.
  split; [rewrite lookup_insert_ne by exact Hpad; exact Hold|].
  split; [apply lookup_insert_eq|].
  intros Hfree. apply map_size_insert_None. exact Hfree.
Qed.

Lemma update_of_padded_name_witness :
  passwords (installed_with {[" github" := "Sup3r$ecret1"]}) !! " github"
  = Some "Sup3r$ecret1"
  ∧ strip " github" ≠ " github"
  ∧ strip "N3w$ecret!" ≠ EmptyString
  ∧ passwords (exec (CredentialStore.update " github" "N3w$ecret!" Written)
                 (installed_with {[" github" := "Sup3r$ecret1"]})) !! " github"
    = Some "Sup3r$ecret1"
  ∧ passwords (exec (CredentialStore.update " github" "N3w$ecret!" Written)
                 (installed_with {[" github" := "Sup3r$ecret1"]})) !! strip " github"
    = Some (strip "N3w$ecret!").
Proof.
  assert (H1 : passwords (installed_with {[" github" := "Sup3r$ecret1"]}) !! " github"
               = Some "Sup3r$ecret1") by (vm_compute; reflexivity).
  assert (H2 : strip " github" ≠ " github") by (vm_compute; discriminate).
  assert (H3 : strip "N3w$ecret!" ≠ EmptyString) by (vm_compute; discriminate).
  destruct (update_of_padded_name (installed_with {[" github" := "Sup3r$ecret1"]})
              " github" "Sup3r$ecret1" "N3w$ecret!" Written H1 H2 H3)
    as (Hkept & Hnew & _).
  split; [exact H1|]. split; [exact H2|]. split; [exact H3|].
  split; [exact Hkept | exact Hnew].
Defined.

Lemma well_formed_insert (d : gmap string string) (name secret : string) :
  well_formed d → trimmed name → trimmed secret →
  well_formed (<[name := secret]> d).
Proof.
  intros Hd Hn Hs k v Hkv.
  destruct (decide (name = k)) as [<-|Hne].
  - rewrite lookup_insert_eq in Hkv. injection Hkv as <-. split; assumption.
  - rewrite lookup_insert_ne in Hkv by exact Hne. exact (Hd k v Hkv).
Qed.

Lemma well_formed_delete (d : gmap string string) (name : string) :
  well_formed d → well_formed (delete name d).
Proof.
  intros Hd k v Hkv. apply lookup_delete_Some in Hkv as [_ Hkv]. exact (Hd k v Hkv).
Qed.

(** X9: names and secrets are kept trimmed and non-empty.  When every entry
    of the store is so, it still is after any add, after any update of a
    stored name and after any delete, accepted or refused, whatever the
    write does; such an update replaces the entry of the name and adds
    none. *)
Theorem store_stays_well_formed
    (s : PasswordManager) (name secret : string) (answer : StandardButton)
    (io : write_outcome (gmap string string)) :
  well_formed (passwords s) →
  well_formed (passwords (exec (CredentialStore.add name secret io) s))
  ∧ well_formed (passwords (exec (CredentialStore.delete name answer io) s))
  ∧ (is_Some (passwords s !! name) →
     well_formed (passwords (exec (CredentialStore.update name secret io) s))
     ∧ dom (passwords (exec (CredentialStore.update name secret io) s))
       = dom (passwords s)
     ∧ (strip secret ≠ EmptyString →
        passwords (exec (CredentialStore.update name secret io) s) !! name
        = Some (strip secret))).
Proof.
  intros Hwf. split; [|split].
  - destruct (decide (strip name = EmptyString)) as [Hn|Hn];
      [unfold exec; rewrite add_rejected by (left; exact Hn); exact Hwf|].
    destruct (decide (strip secret = EmptyString)) as [Hs|Hs];
      [unfold exec; rewrite add_rejected by (right; exact Hs); exact Hwf|].
    rewrite add_passwords by assumption.
    apply well_formed_insert; [exact Hwf | |]; apply strip_trimmed; assumption.
  - destruct answer; [|exact Hwf].
    destruct (passwords s !! name) as [old|] eqn:Hp.
    + rewrite delete_passwords by (rewrite Hp; eexists; reflexivity).
      apply well_formed_delete. exact Hwf.
    + unfold exec. rewrite delete_absent by exact Hp. exact Hwf.
  - intros [old Hold]. destruct (Hwf name old Hold) as [[Hclean Hfull] _].
    destruct (decide (strip secret = EmptyString)) as [Hs|Hs].
    + unfold exec. rewrite update_rejected by exact Hs.
      split; [exact Hwf|]. split; [reflexivity | contradiction].
    + rewrite update_passwords by assumption. rewrite Hclean.
      split; [apply well_formed_insert;
              [exact Hwf | split; assumption | apply strip_trimmed; exact Hs]|].
      split; [apply dom_insert_lookup_L; rewrite Hold; eexists; reflexivity|].
      intros _. apply lookup_insert_eq.
Qed.

Lemma well_formed_empty : well_formed ∅.
Proof. intros k v H. rewrite lookup_empty in H. discriminate. Qed.

Lemma store_stays_well_formed_witness :
  well_formed (passwords fresh_install)
  ∧ well_formed (passwords (exec (CredentialStore.add " github " " Sup3r$ecret1 " Written)
                              fresh_install)).
Proof.
  assert (H : well_formed (passwords fresh_install)) by exact well_formed_empty.
  split; [exact H|].
  exact (proj1 (store_stays_well_formed fresh_install " github " " Sup3r$ecret1 "
                  Yes Written H)).
Defined.

(** X10: the store is written whole, so an entry whose own write failed
    reaches the file with the next write that completes: after a failed add
    followed by an add that is written, the file, the store and the main
    page hold both entries. *)
Theorem failed_add_is_saved_by_next_add
    (s : PasswordManager) (name1 secret1 name2 secret2 : string)
    (e : exn) (residue : file (gmap string string)) :
  strip name1 ≠ EmptyString → strip secret1 ≠ EmptyString →
  strip name2 ≠ EmptyString → strip secret2 ≠ EmptyString →
  passwords_json
    (disk (exec (CredentialStore.add name2 secret2 Written)
             (exec (CredentialStore.add name1 secret1 (WriteRaises e residue)) s)))
  = Present (Returns (<[strip name2 := strip secret2]>
                        (<[strip name1 := strip secret1]> (passwords s))))
  ∧ passwords (exec (CredentialStore.add name2 secret2 Written)
                 (exec (CredentialStore.add name1 secret1 (WriteRaises e residue)) s))
    = <[strip name2 := strip secret2]>
        (<[strip name1 := strip secret1]> (passwords s))
  ∧ strip name1
    ∈ password_list (exec (CredentialStore.add name2 secret2 Written)
                       (exec (CredentialStore.add name1 secret1 (WriteRaises e residue)) s)).
Proof.
  intros Hn1 Hs1 Hn2 Hs2.
  pose proof (add_passwords name1 secret1 s Hn1 Hs1 (WriteRaises e residue)) as Hfirst.
  set (s1 := exec (CredentialStore.add name1 secret1 (WriteRaises e residue)) s) in *.
  clearbody s1.
  destruct (add_written_synced s1 name2 secret2 Hn2 Hs2) as [Hsync Hlist].
  pose proof (add_passwords name2 secret2 s1 Hn2 Hs2 Written) as Hsecond.
  rewrite Hfirst in Hsecond.
  split; [rewrite Hsync, Hsecond; reflexivity|].
  split; [exact Hsecond|].
  rewrite Hlist, Hsecond, !dom_insert_L.
  apply elem_of_union_r, elem_of_union_l, elem_of_singleton. reflexivity.
Qed.

Lemma failed_add_is_saved_by_next_add_witness :
  strip "github" ≠ EmptyString ∧ strip "Sup3r$ecret1" ≠ EmptyString
  ∧ strip "gitlab" ≠ EmptyString ∧ strip "N3w$ecret!" ≠ EmptyString
  ∧ strip "github"
    ∈ password_list (exec (CredentialStore.add "gitlab" "N3w$ecret!" Written)
                       (exec (CredentialStore.add "github" "Sup3r$ecret1" disk_full)
                          fresh_install)).
Proof.
  assert (H1 : strip "github" ≠ EmptyString) by (vm_compute; discriminate).
  assert (H2 : strip "Sup3r$ecret1" ≠ EmptyString) by (vm_compute; discriminate).
  assert (H3 : strip "gitlab" ≠ EmptyString) by (vm_compute; discriminate).
  assert (H4 : strip "N3w$ecret!" ≠ EmptyString) by (vm_compute; discriminate).
  split; [exact H1|]. split; [exact H2|]. split; [exact H3|]. split; [exact H4|].
  exact (proj2 (proj2 (failed_add_is_saved_by_next_add fresh_install
                         "github" "Sup3r$ecret1" "gitlab" "N3w$ecret!"
                         (OSError "[Errno 28] No space left on device")
                         (Present (Raises JSONDecodeError)) H1 H2 H3 H4))).
Defined.

End Accepted.

(** ** Starting the window *)

(** X11: [load_settings] swallows a missing file and a [JSONDecodeError] and
    lets any other exception through; it shows nothing and writes nothing.
    Whatever the file, the settings it leaves hold the five keys of the
    defaults: the defaults alone, or the file's entries over them. *)
Theorem load_settings_outcome (s : PasswordManager) :
  returned load_settings s
    = match fatal (settings_json (disk s)) with
      | Some e => Raise e
      | None => Val tt
      end
  ∧ settings (exec load_settings s)
    = loaded default_settings (dict_update default_settings) (settings_json (disk s))
  ∧ has_defaults (settings (exec load_settings s))
  ∧ passwords (exec load_settings s) = passwords s
  ∧ disk (exec load_settings s) = disk s
  ∧ dialogs (exec load_settings s) = dialogs s.
Proof.
  unfold returned, exec, has_defaults.
  destruct (settings_json (disk s)) as [|[e|saved]] eqn:Hfile.
  - rewrite (load_settings_missing s Hfile). cbn. repeat split. reflexivity.
  - rewrite (load_settings_raises s e Hfile). cbn.
    destruct (is_JSONDecodeError e); repeat split; reflexivity.
  - rewrite (load_settings_returns s saved Hfile). cbn.
    split; [reflexivity|]. split; [reflexivity|].
    split; [|repeat split].
    unfold dict_update. rewrite dom_union_L. apply union_subseteq_r.
Qed.

(** X12: on a disk as the model takes it (each file missing, failing to
    load, or holding a JSON object of the program's shape), [__init__]
    raises the exception of the credential file when its read raises
    anything but [JSONDecodeError], the store being empty and the settings
    not loaded; else it raises the exception of the settings file when that
    read raises anything but [JSONDecodeError], the store being loaded and
    the settings the defaults; else it returns, the store being the file's
    mapping (empty for a missing or unparseable file), the settings the
    file's entries over the defaults, the main page listing the stored
    names, page 0 shown and the fields empty.  In every case no box is shown
    and neither file is written. *)
Theorem init_outcome (d : Disk) :
  (∀ e, fatal (passwords_json d) = Some e →
        returned init (blank d) = Raise e
        ∧ passwords (exec init (blank d)) = ∅
        ∧ settings (exec init (blank d)) = ∅)
  ∧ (fatal (passwords_json d) = None →
     ∀ e, fatal (settings_json d) = Some e →
          returned init (blank d) = Raise e
          ∧ passwords (exec init (blank d)) = loaded ∅ id (passwords_json d)
          ∧ settings (exec init (blank d)) = default_settings)
  ∧ (fatal (passwords_json d) = None → fatal (settings_json d) = None →
     returned init (blank d) = Val tt
     ∧ passwords (exec init (blank d)) = loaded ∅ id (passwords_json d)
     ∧ settings (exec init (blank d))
       = loaded default_settings (dict_update default_settings) (settings_json d)
     ∧ listed (exec init (blank d))
     ∧ stacked_widget (exec init (blank d)) = 0%nat
     ∧ program_input (exec init (blank d)) = EmptyString
     ∧ password_input (exec init (blank d)) = EmptyString)
  ∧ disk (exec init (blank d)) = d
  ∧ dialogs (exec init (blank d)) = [].
Proof.
  destruct d as [pw st]. unfold returned, exec, init, listed.
  destruct pw as [|[e1|saved1]], st as [|[e2|saved2]];
    try destruct e1; try destruct e2; cbn;
    (split; [intros e He; try discriminate He; injection He as <-;
             repeat split|]);
    (split; [intros Hpw e He; try discriminate He; try discriminate Hpw;
             injection He as <-; repeat split|]);
    (split; [intros Hpw Hst; try discriminate Hpw; try discriminate Hst;
             repeat split|]);
    split; reflexivity.
Qed.

Lemma init_outcome_witness :
  fatal (passwords_json (mkDisk (Present (Raises JSONDecodeError))
                           (Present (Returns {["theme" := JStr "dark"]})))) = None
  ∧ fatal (settings_json (mkDisk (Present (Raises JSONDecodeError))
                            (Present (Returns {["theme" := JStr "dark"]})))) = None
  ∧ listed (exec init (blank (mkDisk (Present (Raises JSONDecodeError))
                                (Present (Returns {["theme" := JStr "dark"]})))))
  ∧ fatal (passwords_json (mkDisk (Present (Raises (OSError "[Errno 13] Permission denied")))
                             Missing))
    = Some (OSError "[Errno 13] Permission denied")
  ∧ returned init (blank (mkDisk (Present (Raises (OSError "[Errno 13] Permission denied")))
                            Missing))
    = Raise (OSError "[Errno 13] Permission denied").
Proof.
  destruct (init_outcome (mkDisk (Present (Raises JSONDecodeError))
                            (Present (Returns {["theme" := JStr "dark"]}))))
    as (_ & _ & Hgood & _).
  destruct (init_outcome (mkDisk (Present (Raises (OSError "[Errno 13] Permission denied")))
                            Missing))
    as (Hbad & _).
  split; [reflexivity|]. split; [reflexivity|].
  split; [exact (proj1 (proj2 (proj2 (proj2 (Hgood eq_refl eq_refl)))))|].
  split; [reflexivity|].
  exact (proj1 (Hbad _ eq_refl)).
Defined.

(** ** The settings page *)

Section SettingsPage.
Variable int : string → option Z.

(** X13: when the two fields read as integers with 1 ≤ minimum ≤ maximum
    (equal bounds and a minimum of 1 included), [save_settings] stores both
    lengths whatever the write does.  A completed write reports success,
    leaves the new settings in the file and shows the main page; a failed
    write reports the error, keeps the new lengths in memory and stays on
    the page.  The store and its file are never touched. *)
Theorem save_settings_accepts
    (s : PasswordManager) (lo hi : Z)
    (e : exn) (residue : file (gmap string json)) :
  int (min_length_input s) = Some lo →
  int (max_length_input s) = Some hi →
  1 ≤ lo → lo ≤ hi →
  (settings (exec (save_settings int Written) s)
     = <["max_length" := JInt hi]> (<["min_length" := JInt lo]> (settings s))
   ∧ outcomes (save_settings int Written) s = [Ok]
   ∧ settings_json (disk (exec (save_settings int Written) s))
     = Present (Returns (settings (exec (save_settings int Written) s)))
   ∧ stacked_widget (exec (save_settings int Written) s) = 0%nat
   ∧ passwords (exec (save_settings int Written) s) = passwords s
   ∧ passwords_json (disk (exec (save_settings int Written) s))
     = passwords_json (disk s))
  ∧ (settings (exec (save_settings int (WriteRaises e residue)) s)
     = <["max_length" := JInt hi]> (<["min_length" := JInt lo]> (settings s))
   ∧ outcomes (save_settings int (WriteRaises e residue)) s = [PersistenceError]
   ∧ settings_json (disk (exec (save_settings int (WriteRaises e residue)) s))
     = residue
   ∧ stacked_widget (exec (save_settings int (WriteRaises e residue)) s)
     = stacked_widget s
   ∧ passwords (exec (save_settings int (WriteRaises e residue)) s) = passwords s
   ∧ passwords_json (disk (exec (save_settings int (WriteRaises e residue)) s))
     = passwords_json (disk s)).
Proof.
  intros Hmin Hmax Hlo Hhi.
  assert (Hok : 1 ≤ lo ∧ lo ≤ hi) by (split; assumption).
  split.
  - split; [|split].
    + unfold exec. rewrite (save_settings_written int s lo hi Hmin Hmax Hok). reflexivity.
    + apply (outcomes_intro _ _ [success_box "Settings saved successfully!"]).
      unfold exec. rewrite (save_settings_written int s lo hi Hmin Hmax Hok). reflexivity.
    + unfold exec. rewrite (save_settings_written int s lo hi Hmin Hmax Hok).
      repeat split.
  - split; [|split].
    + unfold exec.
      rewrite (save_settings_write_failed int s lo hi Hmin Hmax Hok). reflexivity.
    + apply (outcomes_intro _ _ [failed_to_save_box e]).
      unfold exec.
      rewrite (save_settings_write_failed int s lo hi Hmin Hmax Hok). reflexivity.
    + unfold exec.
      rewrite (save_settings_write_failed int s lo hi Hmin Hmax Hok). repeat split.
Qed.

(** X14: [save_settings] never stores a minimum below 1 or a maximum below
    the minimum: when the lengths in memory are integers with
    1 ≤ minimum ≤ maximum they still are after any call, whatever the fields
    hold and whatever the write does. *)
Theorem save_settings_keeps_lengths_ok
    (s : PasswordManager) (io : write_outcome (gmap string json)) :
  lengths_ok (settings s) →
  lengths_ok (settings (exec (save_settings int io) s)).
Proof.
  intros Hok.
  destruct (save_settings_cases int s io)
    as [(_ & box & _ & Hrun)
       | (Hgood & lo & hi & box & d & Hmin & Hmax & _ & _ & Hrun)].
  - unfold exec. rewrite Hrun. exact Hok.
  - apply (f_equal settings) in Hrun. cbn in Hrun. rewrite Hrun.
    unfold invalid_lengths in Hgood. rewrite Hmin, Hmax in Hgood.
    exists lo, hi. split; [|split; [|lia]].
    + rewrite lookup_insert_ne by discriminate. apply lookup_insert_eq.
    + apply lookup_insert_eq.
Qed.

Lemma union_covered (d1 d2 : gmap string json) :
  dom d2 ⊆ dom d1 → d1 ∪ d2 = d1.
Proof.
  intros Hsub. apply map_eq. intros key.
  destruct (d1 !! key) as [v|] eqn:Hkey.
  - apply lookup_union_Some_l. exact Hkey.
  - rewrite lookup_union_r by exact Hkey.
    apply not_elem_of_dom. intros Hin. apply Hsub in Hin.
    apply elem_of_dom in Hin as [v Hv]. congruence.
Qed.

(** X15: settings saved by a completed write load back unchanged: when the
    settings in memory hold the five keys of the defaults and the fields
    hold acceptable lengths, [load_settings] after [save_settings] yields
    the settings [save_settings] left. *)
Theorem saved_settings_load_back
    (s : PasswordManager) (lo hi : Z) :
  has_defaults (settings s) →
  int (min_length_input s) = Some lo →
  int (max_length_input s) = Some hi →
  1 ≤ lo → lo ≤ hi →
  returned load_settings (exec (save_settings int Written) s) = Val tt
  ∧ settings (exec load_settings (exec (save_settings int Written) s))
    = settings (exec (save_settings int Written) s)
  ∧ has_defaults (settings (exec (save_settings int Written) s)).
Proof.
  intros Hdef Hmin Hmax Hlo Hhi.
  assert (Hok : 1 ≤ lo ∧ lo ≤ hi) by (split; assumption).
  assert (Hdef' : has_defaults (settings (exec (save_settings int Written) s))).
  { unfold exec. rewrite (save_settings_written int s lo hi Hmin Hmax Hok). cbn.
    unfold has_defaults in *. rewrite !dom_insert_L.
    etransitivity; [exact Hdef|].
    etransitivity; [|apply union_subseteq_r]. apply union_subseteq_r. }
  assert (Hfile : settings_json (disk (exec (save_settings int Written) s))
                  = Present (Returns (settings (exec (save_settings int Written) s)))).
  { unfold exec. rewrite (save_settings_written int s lo hi Hmin Hmax Hok). reflexivity. }
  set (s1 := exec (save_settings int Written) s) in *. clearbody s1.
  unfold returned, exec. rewrite (load_settings_returns s1 _ Hfile). cbn.
  split; [reflexivity|]. split; [|exact Hdef'].
  unfold dict_update. apply union_covered. exact Hdef'.
Qed.

End SettingsPage.

Lemma save_settings_accepts_witness :
  PyInt.int (min_length_input (settings_typed " 12 " "12")) = Some 12
  ∧ PyInt.int (max_length_input (settings_typed " 12 " "12")) = Some 12
  ∧ 1 ≤ 12 ∧ 12 ≤ 12
  ∧ outcomes (save_settings PyInt.int Written) (settings_typed " 12 " "12") = [Ok]
  ∧ settings (exec (save_settings PyInt.int settings_disk_full) (settings_typed " 12 " "12"))
    = <["max_length" := JInt 12]>
        (<["min_length" := JInt 12]> (settings (settings_typed " 12 " "12"))).
Proof.
  assert (H1 : PyInt.int (min_length_input (settings_typed " 12 " "12")) = Some 12)
    by (vm_compute; reflexivity).
  assert (H2 : PyInt.int (max_length_input (settings_typed " 12 " "12")) = Some 12)
    by (vm_compute; reflexivity).
  assert (H3 : 1 ≤ 12) by lia.
  assert (H4 : 12 ≤ 12) by lia.
  destruct (save_settings_accepts PyInt.int (settings_typed " 12 " "12") 12 12
              (OSError "[Errno 28] No space left on device")
              (Present (Raises JSONDecodeError)) H1 H2 H3 H4)
    as ((_ & Hout & _) & (Hkept & _)).
  split; [exact H1|]. split; [exact H2|]. split; [exact H3|]. split; [exact H4|].
  split; [exact Hout | exact Hkept].
Defined.

Lemma defaults_has_defaults : has_defaults default_settings.
Proof. unfold has_defaults. reflexivity. Qed.

Lemma defaults_lengths_ok : lengths_ok default_settings.
Proof. exists 8, 20. repeat split; [vm_compute; discriminate | vm_compute; discriminate]. Qed.

Lemma save_settings_keeps_lengths_ok_witness :
  lengths_ok (settings (settings_typed "0" "3"))
  ∧ lengths_ok (settings (exec (save_settings PyInt.int Written) (settings_typed "0" "3"))).
Proof.
  assert (H : lengths_ok (settings (settings_typed "0" "3")))
    by exact defaults_lengths_ok.
  split; [exact H|].
  exact (save_settings_keeps_lengths_ok PyInt.int (settings_typed "0" "3") Written H).
Defined.

Lemma saved_settings_load_back_witness :
  has_defaults (settings (settings_typed "6" "64"))
  ∧ PyInt.int (min_length_input (settings_typed "6" "64")) = Some 6
  ∧ PyInt.int (max_length_input (settings_typed "6" "64")) = Some 64
  ∧ 1 ≤ 6 ∧ 6 ≤ 64
  ∧ settings (exec load_settings (exec (save_settings PyInt.int Written) (settings_typed "6" "64")))
    = settings (exec (save_settings PyInt.int Written) (settings_typed "6" "64")).
Proof.
  assert (H0 : has_defaults (settings (settings_typed "6" "64")))
    by exact defaults_has_defaults.
  assert (H1 : PyInt.int (min_length_input (settings_typed "6" "64")) = Some 6)
    by (vm_compute; reflexivity).
  assert (H2 : PyInt.int (max_length_input (settings_typed "6" "64")) = Some 64)
    by (vm_compute; reflexivity).
  assert (H3 : 1 ≤ 6) by lia.
  assert (H4 : 6 ≤ 64) by lia.
  split; [exact H0|]. split; [exact H1|]. split; [exact H2|].
  split; [exact H3|]. split; [exact H4|].
  exact (proj1 (proj2 (saved_settings_load_back PyInt.int (settings_typed "6" "64")
                         6 64 H0 H1 H2 H3 H4))).
Defined.

(** ** Resetting the settings *)

Section Reset.
Variable str_of : json → string.

Lemma reset_settings_written (s : PasswordManager) :
  reset_settings str_of Written s
  = (Val tt,
     set_dialogs (dialogs s ++ [success_box "Settings reset to defaults!"])
       (set_disk
          (write_file settings_file (Present (Returns default_settings)) (disk s))
          (set_max_length_input (str_of (JInt 20))
             (set_min_length_input (str_of (JInt 8))
                (set_settings default_settings s))))).
Proof. reflexivity. Qed.

Lemma reset_settings_write_failed (s : PasswordManager) e residue :
  reset_settings str_of (WriteRaises e residue) s
  = (Val tt,
     set_dialogs (dialogs s ++ [failed_to_save_box e])
       (set_disk (write_file settings_file residue (disk s))
          (set_max_length_input (str_of (JInt 20))
             (set_min_length_input (str_of (JInt 8))
                (set_settings default_settings s))))).
Proof. reflexivity. Qed.

(** X16: [reset_settings] puts the defaults in memory whether or not its
    write completes, so every key a file had added is gone and the lengths
    are 8 and 20; it fills the two fields with their texts, returns without
    raising, does not leave the page and does not touch the store or its
    file.  The write decides only the box shown and the settings file. *)
Theorem reset_settings_restores_defaults
    (s : PasswordManager) (io : write_outcome (gmap string json)) :
  returned (reset_settings str_of io) s = Val tt
  ∧ settings (exec (reset_settings str_of io) s) = default_settings
  ∧ min_length_input (exec (reset_settings str_of io) s) = str_of (JInt 8)
  ∧ max_length_input (exec (reset_settings str_of io) s) = str_of (JInt 20)
  ∧ stacked_widget (exec (reset_settings str_of io) s) = stacked_widget s
  ∧ passwords (exec (reset_settings str_of io) s) = passwords s
  ∧ passwords_json (disk (exec (reset_settings str_of io) s))
    = passwords_json (disk s)
  ∧ outcomes (reset_settings str_of io) s
    = match io with Written => [Ok] | WriteRaises _ _ => [PersistenceError] end
  ∧ settings_json (disk (exec (reset_settings str_of io) s))
    = match io with
      | Written => Present (Returns default_settings)
      | WriteRaises _ residue => residue
      end.
Proof.
  unfold returned, exec. destruct io as [|e residue].
  - rewrite reset_settings_written. cbn. repeat split.
    apply (outcomes_intro _ _ [success_box "Settings reset to defaults!"]).
    unfold exec. rewrite reset_settings_written. reflexivity.
  - rewrite reset_settings_write_failed. cbn. repeat split.
    apply (outcomes_intro _ _ [failed_to_save_box e]).
    unfold exec. rewrite reset_settings_write_failed. reflexivity.
Qed.

(** X17: when [int] reads back the texts [str] gives for 8 and 20, pressing
    Save Settings after a reset is accepted and leaves the defaults in
    memory and, its write completing, in the file, also when the write of
    the reset itself had failed. *)
Theorem reset_then_save_keeps_defaults
    (int : string → option Z) (s : PasswordManager)
    (io : write_outcome (gmap string json)) :
  int (str_of (JInt 8)) = Some 8 →
  int (str_of (JInt 20)) = Some 20 →
  outcomes (save_settings int Written) (exec (reset_settings str_of io) s) = [Ok]
  ∧ settings (exec (save_settings int Written) (exec (reset_settings str_of io) s))
    = default_settings
  ∧ settings_json
      (disk (exec (save_settings int Written) (exec (reset_settings str_of io) s)))
    = Present (Returns default_settings).
Proof.
  intros H8 H20.
  assert (Hreset : settings (exec (reset_settings str_of io) s) = default_settings
                   ∧ min_length_input (exec (reset_settings str_of io) s)
                     = str_of (JInt 8)
                   ∧ max_length_input (exec (reset_settings str_of io) s)
                     = str_of (JInt 20)).
  { unfold exec. destruct io as [|e residue];
      [rewrite reset_settings_written | rewrite reset_settings_write_failed];
      repeat split. }
  destruct Hreset as (Hset & Hmin & Hmax).
  set (s1 := exec (reset_settings str_of io) s) in *. clearbody s1.
  rewrite <- Hmin in H8. rewrite <- Hmax in H20.
  assert (Hok : 1 ≤ 8 ∧ 8 ≤ 20) by lia.
  pose proof (save_settings_written int s1 8 20 H8 H20 Hok) as Hrun.
  assert (Hsame : <["max_length" := JInt 20]> (<["min_length" := JInt 8]> (settings s1))
                  = default_settings).
  { rewrite Hset. vm_compute. reflexivity. }
  split.
  { apply (outcomes_intro _ _ [success_box "Settings saved successfully!"]).
    unfold exec. rewrite Hrun. reflexivity. }
  unfold exec. rewrite Hrun. cbn. rewrite Hsame. split; reflexivity.
Qed.

End Reset.

Lemma reset_then_save_keeps_defaults_witness :
  PyInt.int (str_of_value (JInt 8)) = Some 8
  ∧ PyInt.int (str_of_value (JInt 20)) = Some 20
  ∧ settings (exec (save_settings PyInt.int Written)
                (exec (reset_settings str_of_value settings_disk_full)
                   (exec load_settings (blank themed_disk))))
    = default_settings.
Proof.
  assert (H1 : PyInt.int (str_of_value (JInt 8)) = Some 8) by (vm_compute; reflexivity).
  assert (H2 : PyInt.int (str_of_value (JInt 20)) = Some 20) by (vm_compute; reflexivity).
  split; [exact H1|]. split; [exact H2|].
  exact (proj1 (proj2 (reset_then_save_keeps_defaults str_of_value PyInt.int
                         (exec load_settings (blank themed_disk))
                         settings_disk_full H1 H2))).
Defined.

(** ** The rows of the main page *)

#[global] Instance str_le_total : Total str_le.
Proof. intros a b. apply String.leb_total. Qed.

Lemma take_all_empties (layout : list layout_item) : take_all layout = [].
Proof. induction layout as [|item rest IH]; [reflexivity | exact IH]. Qed.

(** The index test of the loop puts a line after every row but the last. *)
Lemma add_rows_between (names : list string) (i count : Z) :
  count = i + Z.of_nat (length names) →
  add_rows i count names = between Line (Row <$> names).
Proof.
  revert i. induction names as [|name rest IH]; intros i Hcount; [reflexivity|].
  cbn [add_rows]. rewrite (IH (i + 1)) by (cbn [length] in Hcount; lia).
  destruct rest as [|next rest].
  - cbn [length] in Hcount.
    assert ((i <? count - 1) = false) as -> by (apply Z.ltb_ge; lia).
    reflexivity.
  - cbn [length] in Hcount.
    assert ((i <? count - 1) = true) as -> by (apply Z.ltb_lt; lia).
    reflexivity.
Qed.

Lemma length_between {A} (sep : A) (l : list A) :
  length (between sep l) = (2 * length l - 1)%nat.
Proof.
  induction l as [|x rest IH]; [reflexivity|].
  destruct rest as [|y rest]; [reflexivity|].
  change (between sep (x :: y :: rest)) with (x :: sep :: between sep (y :: rest)).
  cbn [length] in *. rewrite IH. lia.
Qed.

Lemma row_in_between (names : list string) (name : string) :
  Row name ∈ between Line (Row <$> names) ↔ name ∈ names.
Proof.
  induction names as [|x rest IH].
  - cbn. split; intros H; inversion H.
  - destruct rest as [|y rest].
    + cbn. rewrite !list_elem_of_singleton. split; [intros [= ->] | intros ->]; reflexivity.
    + change (between Line (Row <$> x :: y :: rest))
        with (Row x :: Line :: between Line (Row <$> y :: rest)).
      rewrite !elem_of_cons, IH, !elem_of_cons.
      split.
      * intros [[= ->] | [Hline | H]]; [left; reflexivity | discriminate | right; exact H].
      * intros [-> | H]; [left; reflexivity | right; right; exact H].
Qed.

Lemma length_sorted_keys {V} (d : gmap string V) :
  length (sorted_keys d) = size d.
Proof.
  unfold sorted_keys. rewrite (merge_sort_Permutation str_le (elements (dom d))).
  rewrite <- (size_dom (D := gset string) d). reflexivity.
Qed.

(** X18: [refresh_password_list] rebuilds the main page from nothing: the
    layout it leaves does not depend on the layout before.  It holds one row
    per stored name and no other row, in ascending order of the names, a
    line between two consecutive rows and none after the last, and one
    stretch at the end: twice as many items as names, one for an empty
    store. *)
Theorem main_page_layout
    (layout : list layout_item) (d : gmap string string) :
  refresh_layout layout d = between Line (Row <$> sorted_keys d) ++ [Stretch]
  ∧ sorted_keys d ≡ₚ elements (dom d)
  ∧ NoDup (sorted_keys d)
  ∧ Sorted str_le (sorted_keys d)
  ∧ (∀ name, Row name ∈ refresh_layout layout d ↔ is_Some (d !! name))
  ∧ length (refresh_layout layout d) = Nat.max 1 (2 * size d).
Proof.
  assert (Hperm : sorted_keys d ≡ₚ elements (dom d))
    by apply merge_sort_Permutation.
  assert (Heq : refresh_layout layout d
                = between Line (Row <$> sorted_keys d) ++ [Stretch]).
  { unfold refresh_layout. rewrite take_all_empties. cbn [app].
    rewrite (add_rows_between (sorted_keys d) 0 (Z.of_nat (size d)));
      [reflexivity|].
    rewrite length_sorted_keys. lia. }
  split; [exact Heq|]. split; [exact Hperm|].
  split; [rewrite Hperm; apply NoDup_elements|].
  split; [apply Sorted_merge_sort; apply _|].
  split.
  - intros name. rewrite Heq, elem_of_app, row_in_between, list_elem_of_singleton.
    rewrite Hperm, elem_of_elements, elem_of_dom.
    split; [intros [H | H]; [exact H | discriminate] | intros H; left; exact H].
  - rewrite Heq, length_app, length_between, length_fmap, length_sorted_keys.
    cbn [length]. lia.
Qed.
